(** * tfproviderdocs: the [check] command (command/check.go)

    A shallow embedding of [CheckCommand.Run] and of the helpers declared
    next to it, together with the properties the documentation states
    about them.  Go strings are [string] (byte sequences), [[]string] is
    [list string] (the nil slice is the empty list), a Go [map] is
    [option (gmap string _)] (the nil map is [None]), and a Go
    [(value, error)] pair is a pair whose second component is
    [option error]. *)

From stdpp Require Import base decidable option list sorting gmap strings.
From Stdlib Require Import Ascii ZArith.

Local Open Scope Z_scope.

(** An [error] is represented by its [Error()] text. *)
Definition error := string.

(** ** The string functions of Go's standard library that the file calls *)

Module strings.

(** [strings.HasPrefix(s, prefix)]. *)
Fixpoint HasPrefix (s prefix : string) {struct prefix} : bool :=
  match prefix with
  | "" => true
  | String p prefix' =>
      match s with
      | "" => false
      | String c s' => if decide (c = p) then HasPrefix s' prefix' else false
      end
  end.

(** [s[n:]] for [n <= len(s)]. *)
Fixpoint sliceFrom (n : nat) (s : string) : string :=
  match n, s with
  | O, _ => s
  | S n', String _ s' => sliceFrom n' s'
  | S _, "" => ""
  end.

(** [strings.TrimPrefix(s, prefix)]. *)
Definition TrimPrefix (s prefix : string) : string :=
  if HasPrefix s prefix then sliceFrom (String.length prefix) s else s.

(** [strings.IndexByte(chars, c) >= 0]. *)
Fixpoint hasByte (chars : string) (c : ascii) : bool :=
  match chars with
  | "" => false
  | String d chars' => if decide (c = d) then true else hasByte chars' c
  end.

(** [strings.ContainsAny(s, chars)], for [chars] made of ASCII bytes (the
    only call passes [./]); on such a set matching bytes and matching
    code points agree. *)
Fixpoint ContainsAny (s chars : string) : bool :=
  match s with
  | "" => false
  | String c s' => if hasByte chars c then true else ContainsAny s' chars
  end.

(** [strings.Split(s, sep)] for a one-byte separator (the calls pass [,]
    and [/]).  [cur] is the piece being read. *)
Fixpoint splitFrom (sep : ascii) (cur s : string) : list string :=
  match s with
  | "" => [cur]
  | String c s' =>
      if decide (c = sep) then cur :: splitFrom sep "" s'
      else splitFrom sep (cur +:+ String c "") s'
  end.

Definition Split (s : string) (sep : ascii) : list string := splitFrom sep "" s.

End strings.

Module filepath.

(** The loop [for len(path) > 0 && os.IsPathSeparator(path[len(path)-1])]
    of [filepath.Base]: drop the trailing separators. *)
Fixpoint stripTrailingSeparators (path : string) : string :=
  match path with
  | "" => ""
  | String c path' =>
      match stripTrailingSeparators path' with
      | "" => if decide (c = "/"%char) then "" else String c ""
      | rest => String c rest
      end
  end.

(** The second loop of [filepath.Base]: the text after the last separator
    ([cur] is the element being read). *)
Fixpoint lastElementFrom (cur path : string) : string :=
  match path with
  | "" => cur
  | String c path' =>
      if decide (c = "/"%char) then lastElementFrom "" path'
      else lastElementFrom (cur +:+ String c "") path'
  end.

(** [filepath.Base(path)] on a system whose separator is [/] and that has
    no volume names. *)
Definition Base (path : string) : string :=
  if decide (path = "") then "."
  else
    let path := stripTrailingSeparators path in
    let path := lastElementFrom "" path in
    if decide (path = "") then "/" else path.

End filepath.

(** ** providerNameFromPath *)

Definition providerNameFromPath (path : string) : string :=
  let base := filepath.Base path in
  if strings.ContainsAny base "./" then ""
  else if negb (strings.HasPrefix base "terraform-provider-") then ""
  else strings.TrimPrefix base "terraform-provider-".

(** ** Data *)

Module CheckCommandConfig.
Record t := mk {
  AllowedGuideSubcategories : string;
  AllowedGuideSubcategoriesFile : string;
  AllowedResourceSubcategories : string;
  AllowedResourceSubcategoriesFile : string;
  EnableContentsCheck : bool;
  IgnoreCdktfMissingFiles : bool;
  IgnoreFileMismatchDataSources : string;
  IgnoreFileMismatchResources : string;
  IgnoreFileMissingDataSources : string;
  IgnoreFileMissingResources : string;
  LogLevel : string;
  Path : string;
  ProviderName : string;
  ProviderSource : string;
  ProvidersSchemaJson : string;
  RequireGuideSubcategory : bool;
  RequireResourceSubcategory : bool;
  RequireSchemaOrdering : bool
}.

(** [config.Path = p]. *)
Definition setPath (p : string) (c : t) : t :=
  mk (AllowedGuideSubcategories c) (AllowedGuideSubcategoriesFile c)
     (AllowedResourceSubcategories c) (AllowedResourceSubcategoriesFile c)
     (EnableContentsCheck c) (IgnoreCdktfMissingFiles c)
     (IgnoreFileMismatchDataSources c) (IgnoreFileMismatchResources c)
     (IgnoreFileMissingDataSources c) (IgnoreFileMissingResources c)
     (LogLevel c) p (ProviderName c) (ProviderSource c)
     (ProvidersSchemaJson c) (RequireGuideSubcategory c)
     (RequireResourceSubcategory c) (RequireSchemaOrdering c).

(** [config.ProviderName = n]. *)
Definition setProviderName (n : string) (c : t) : t :=
  mk (AllowedGuideSubcategories c) (AllowedGuideSubcategoriesFile c)
     (AllowedResourceSubcategories c) (AllowedResourceSubcategoriesFile c)
     (EnableContentsCheck c) (IgnoreCdktfMissingFiles c)
     (IgnoreFileMismatchDataSources c) (IgnoreFileMismatchResources c)
     (IgnoreFileMissingDataSources c) (IgnoreFileMissingResources c)
     (LogLevel c) (Path c) n (ProviderSource c)
     (ProvidersSchemaJson c) (RequireGuideSubcategory c)
     (RequireResourceSubcategory c) (RequireSchemaOrdering c).

(** The zero value of the struct ([var config CheckCommandConfig]). *)
Definition zero : t :=
  mk "" "" "" "" false false "" "" "" "" "" "" "" "" "" false false false.
End CheckCommandConfig.

(** Modelled from the spec: the type [tfjson.Schema] is declared outside
    this file; the spec describes a schema entry as the set of attribute
    names of one resource or data source. *)
Record Schema := { attributes : list string }.

(** [tfjson.ProviderSchema]: the two maps the file reads. *)
Module ProviderSchema.
Record t := mk {
  ResourceSchemas : option (gmap string Schema);
  DataSourceSchemas : option (gmap string Schema)
}.
End ProviderSchema.

(** [tfjson.ProviderSchemas]. *)
Module ProviderSchemas.
Record t := mk {
  FormatVersion : string;
  Schemas : option (gmap string ProviderSchema.t)
}.
End ProviderSchemas.

(** The option structs of package [check], with the fields that [Run]
    fills in. *)
Inductive ResourceType := ResourceTypeDataSource | ResourceTypeResource.

Module FileOptions.
Record t := mk { BasePath : string }.
End FileOptions.

Module FrontMatterOptions.
Record t := mk {
  AllowedSubcategories : list string;
  RequireSubcategory : bool
}.
End FrontMatterOptions.

Module ContentsOptions.
Record t := mk {
  Enable : bool;
  RequireSchemaOrdering : bool
}.
End ContentsOptions.

Module FileMismatchOptions.
Record t := mk {
  IgnoreFileMismatch : list string;
  IgnoreFileMissing : list string;
  ProviderName : string;
  ResourceType : ResourceType;
  Schemas : option (gmap string Schema)
}.
End FileMismatchOptions.

(** [LegacyDataSourceFileOptions], [LegacyGuideFileOptions],
    [RegistryDataSourceFileOptions] and [RegistryGuideFileOptions] are
    given the same two fields. *)
Module FrontMatterFileOptions.
Record t := mk {
  FileOptions : FileOptions.t;
  FrontMatter : FrontMatterOptions.t
}.
End FrontMatterFileOptions.

(** [LegacyIndexFileOptions] and [RegistryIndexFileOptions]. *)
Module IndexFileOptions.
Record t := mk { FileOptions : FileOptions.t }.
End IndexFileOptions.

(** [LegacyResourceFileOptions] and [RegistryResourceFileOptions]. *)
Module ResourceFileOptions.
Record t := mk {
  Contents : ContentsOptions.t;
  FileOptions : FileOptions.t;
  FrontMatter : FrontMatterOptions.t;
  ProviderName : string
}.
End ResourceFileOptions.

Module CheckOptions.
Record t := mk {
  DataSourceFileMismatch : FileMismatchOptions.t;
  LegacyDataSourceFile : FrontMatterFileOptions.t;
  LegacyGuideFile : FrontMatterFileOptions.t;
  LegacyIndexFile : IndexFileOptions.t;
  LegacyResourceFile : ResourceFileOptions.t;
  ProviderName : string;
  ProviderSource : string;
  RegistryDataSourceFile : FrontMatterFileOptions.t;
  RegistryGuideFile : FrontMatterFileOptions.t;
  RegistryIndexFile : IndexFileOptions.t;
  RegistryResourceFile : ResourceFileOptions.t;
  ResourceFileMismatch : FileMismatchOptions.t;
  IgnoreCdktfMissingFiles : bool
}.
End CheckOptions.

(** What [os.Open] hands to [bufio.NewScanner]: the lines the scanner
    delivers before [Scan] first returns false, and the error the scanner
    then holds ([None] at end of file). *)
Module File.
Record t := mk {
  lines : list string;
  readErr : option error
}.
End File.

(** ** The environment of a run

    Everything [Run] obtains from outside this file: the flag parser and
    the operating system of Go's standard library, the JSON decoder and
    validator of terraform-json, and the functions of the packages
    [command] and [check] that are declared in other files. *)
Record World := {
  (** [c.Help()], whose format string and log-level line are declared in
      another file of package [command] *)
  Help : string;
  (** [flags.Parse(args)] followed by [flags.Args()]: an error, or the
      flag values stored in the configuration and the remaining
      arguments *)
  flagsParse : list string -> error + (CheckCommandConfig.t * list string);
  Getwd : string * option error;
  (** [check.GetDirectories].
      Modelled from the spec: the directory list is an ordered sequence
      of paths *)
  GetDirectories : string -> list string * option error;
  Open : string -> File.t * option error;
  ReadFile : string -> string * option error;
  (** [json.Unmarshal(content, &ps)] *)
  Unmarshal : string -> ProviderSchemas.t * option error;
  (** [ps.Validate()] *)
  Validate : ProviderSchemas.t -> option error;
  (** the passes of [check.Check.Run] over the directories, once the
      options are accepted *)
  checkDirectories : CheckOptions.t -> list string -> option error
}.

(** ** Effects

    What a run does to the outside is recorded as a list of events, in
    the order of the calls. *)
Inductive Event :=
| LogPrintf (msg : string)               (* log.Printf *)
| ConfigureLogging (name level : string)
| UiInfo (msg : string)                  (* c.Ui.Info *)
| UiError (msg : string)                 (* c.Ui.Error *)
| SchemasLookup (key : string)           (* ps.Schemas[key] *)
| NewCheck (opts : CheckOptions.t)       (* check.NewCheck(checkOpts) *)
| CheckRun (directories : list string).  (* Check.Run(directories) *)

(** A helper of the file: the events it emits, and its result. *)
Definition Logged (A : Type) : Type := list Event * A.

(** The body of [Run]: the events emitted so far and either the value of
    an executed [return] statement or the value computed so far. *)
Definition Cmd (A : Type) : Type := list Event * (Z + A).

Definition ret {A} (a : A) : Cmd A := ([], inr a).

Definition bind {A B} (c : Cmd A) (k : A -> Cmd B) : Cmd B :=
  match c with
  | (t, inl code) => (t, inl code)
  | (t, inr a) => let '(t', r) := k a in (t ++ t', r)
  end.

Definition emit (e : Event) : Cmd unit := ([e], inr tt).

(** [return code]. *)
Definition exit {A} (code : Z) : Cmd A := ([], inl code).

(** Calling a helper from [Run]. *)
Definition call {A} (c : Logged A) : Cmd A := (c.1, inr c.2).

Notation "x <- c ;; k" := (bind c (fun x => k))
  (at level 100, c at next level, right associativity).
Notation "c ;; k" := (bind c (fun _ => k))
  (at level 100, right associativity).

(** The events of a finished run and the value it returned. *)
Definition events {A} (c : Cmd A) : list Event := c.1.

Definition result (c : Cmd Z) : Z :=
  match c.2 with inl code => code | inr code => code end.

(** ** The helpers of check.go *)

(** [sort.Strings]. *)
Definition sort_Strings (l : list string) : list string :=
  merge_sort String.le l.

(** [fmt]'s [%v] of a [[]string]. *)
Definition fmt_v (l : list string) : string :=
  "[" +:+ String.concat " " l +:+ "]".

(** The names collected by [for name := range m]; [sort.Strings] is
    applied to them before they are used. *)
Definition rangeKeys (m : option (gmap string Schema)) : list string :=
  match m with
  | None => []
  | Some m => (map_to_list m).*1
  end.

(** The loop [for scanner.Scan() { ... append(..., scanner.Text()) }]
    over the lines the scanner still delivers. *)
Fixpoint scanLoop (pending allowedSubcategories : list string) : list string :=
  match pending with
  | [] => allowedSubcategories
  | text :: pending' => scanLoop pending' (allowedSubcategories ++ [text])
  end.

Definition allowedSubcategoriesFile (w : World) (path : string)
  : Logged (list string * option error) :=
  let log := [LogPrintf ("[DEBUG] Loading allowed subcategories file: " +:+ path)] in
  let '(file, err) := Open w path in
  match err with
  | Some e =>
      (log, ([], Some ("error opening allowed subcategories file (" +:+ path
                         +:+ "): " +:+ e)))
  | None =>
      let allowedSubcategories := scanLoop (File.lines file) [] in
      match err with
      | Some e =>
          (log, ([], Some ("error reading allowed subcategories file (" +:+ path
                             +:+ "): " +:+ e)))
      | None => (log, (allowedSubcategories, None))
      end
  end.

Definition providerNameFromCurrentDirectory (w : World) : string :=
  let '(path, _) := Getwd w in
  providerNameFromPath path.

Definition providerSchemas (w : World) (path : string)
  : Logged (option ProviderSchemas.t * option error) :=
  let log := [LogPrintf ("[DEBUG] Loading providers schema JSON file: " +:+ path)] in
  let '(content, err) := ReadFile w path in
  match err with
  | Some e =>
      (log, (None, Some ("error reading providers schema JSON file (" +:+ path
                           +:+ "): " +:+ e)))
  | None =>
      let '(ps, err) := Unmarshal w content in
      match err with
      | Some e =>
          (log, (None, Some ("error parsing providers schema JSON file (" +:+ path
                               +:+ "): " +:+ e)))
      | None =>
          match Validate w ps with
          | Some e =>
              (log, (None, Some ("error validating providers schema JSON file ("
                                   +:+ path +:+ "): " +:+ e)))
          | None => (log, (Some ps, None))
          end
      end
  end.

(** [provider, ok := ps.Schemas[providerSource]], then
    [if !ok { provider, ok = ps.Schemas[providerName] }].  The pair
    [(provider, ok)] is an [option]; the entries of the map are taken to
    be non-nil. *)
Definition lookupProvider (schemas : gmap string ProviderSchema.t)
    (providerName providerSource : string)
  : Logged (option ProviderSchema.t) :=
  let provider := schemas !! providerSource in
  let log := [SchemasLookup providerSource] in
  match provider with
  | Some _ => (log, provider)
  | None => (log ++ [SchemasLookup providerName], schemas !! providerName)
  end.

Definition notFoundWarning (providerName providerSource : string) : Event :=
  LogPrintf ("[WARN] Provider source (" +:+ providerSource +:+ ") and name ("
             +:+ providerName +:+ ") not found in provider schema").

Definition providerSchemasDataSources (ps : option ProviderSchemas.t)
    (providerName providerSource : string)
  : Logged (option (gmap string Schema)) :=
  match ps with
  | None => ([], None)
  | Some ps =>
      match ProviderSchemas.Schemas ps with
      | None => ([], None)
      | Some schemas =>
          let '(log, provider) := lookupProvider schemas providerName providerSource in
          match provider with
          | None => (log ++ [notFoundWarning providerName providerSource], None)
          | Some provider =>
              let dataSources :=
                sort_Strings (rangeKeys (ProviderSchema.DataSourceSchemas provider)) in
              (log ++ [LogPrintf ("[DEBUG] Found provider schema data sources: "
                                  +:+ fmt_v dataSources)],
               ProviderSchema.DataSourceSchemas provider)
          end
      end
  end.

Definition providerSchemasResources (ps : option ProviderSchemas.t)
    (providerName providerSource : string)
  : Logged (option (gmap string Schema)) :=
  match ps with
  | None => ([], None)
  | Some ps =>
      match ProviderSchemas.Schemas ps with
      | None => ([], None)
      | Some schemas =>
          let '(log, provider) := lookupProvider schemas providerName providerSource in
          match provider with
          | None => (log ++ [notFoundWarning providerName providerSource], None)
          | Some provider =>
              let resources :=
                sort_Strings (rangeKeys (ProviderSchema.ResourceSchemas provider)) in
              (log ++ [LogPrintf ("[DEBUG] Found provider schema data sources: "
                                  +:+ fmt_v resources)],
               ProviderSchema.ResourceSchemas provider)
          end
      end
  end.

(** ** The check engine, as far as [Run] depends on it *)

(** Modelled from the spec: the configuration validation of the check
    engine (package [check], declared outside this file).  The spec asks
    the engine to reject, before any directory is processed, a
    configuration that enables the ordering rule without the contents
    check; it gives no wording for the error. *)
Definition validateContents (c : ContentsOptions.t) : option error :=
  if ContentsOptions.RequireSchemaOrdering c && negb (ContentsOptions.Enable c)
  then Some "schema ordering requires the contents check to be enabled"
  else None.

Definition validateOptions (o : CheckOptions.t) : option error :=
  match validateContents (ResourceFileOptions.Contents (CheckOptions.LegacyResourceFile o)) with
  | Some e => Some e
  | None =>
      validateContents (ResourceFileOptions.Contents (CheckOptions.RegistryResourceFile o))
  end.

(** [check.NewCheck(opts).Run(directories)]: the validation above, then
    the passes over the directories. *)
Definition Check_Run (w : World) (opts : CheckOptions.t) (directories : list string)
  : option error :=
  match validateOptions opts with
  | Some e => Some e
  | None => checkDirectories w opts directories
  end.

(** ** CheckCommand.Run *)

Definition Name : string := "check".

(** [var x []string; if v := ...; v != "" { x = strings.Split(v, ",") }]. *)
Definition commaList (v : string) : list string :=
  if decide (v = "") then [] else strings.Split v ","%char.

(** [parts[len(parts)-1]]; [strings.Split] never returns an empty slice. *)
Definition lastPart (parts : list string) : string := default "" (last parts).

(** Lines 120-131: the provider name of the configuration. *)
Definition resolveProviderName (w : World) (config : CheckCommandConfig.t)
  : CheckCommandConfig.t :=
  let config :=
    if decide (CheckCommandConfig.ProviderName config = "") then
      if decide (CheckCommandConfig.ProviderSource config <> "") then
        let providerSourceParts :=
          strings.Split (CheckCommandConfig.ProviderSource config) "/"%char in
        CheckCommandConfig.setProviderName (lastPart providerSourceParts) config
      else config
    else config in
  if decide (CheckCommandConfig.ProviderName config = "") then
    if decide (CheckCommandConfig.Path config = "") then
      CheckCommandConfig.setProviderName (providerNameFromCurrentDirectory w) config
    else
      CheckCommandConfig.setProviderName
        (providerNameFromPath (CheckCommandConfig.Path config)) config
  else config.

Definition unknownProviderName : string :=
  "Unknown provider name for enabling Terraform Provider schema checks."
  +:+ String "010" (String "010"
  "Check that the current working directory or provided path is prefixed with terraform-provider-*.").

(** Lines 227-306: the options handed to [check.NewCheck]. *)
Definition checkOptions (config : CheckCommandConfig.t)
    (allowedGuideSubcategories allowedResourceSubcategories
     ignoreFileMismatchDataSources ignoreFileMismatchResources
     ignoreFileMissingDataSources ignoreFileMissingResources : list string)
    (schemaDataSources schemaResources : option (gmap string Schema))
  : CheckOptions.t :=
  let fileOpts := FileOptions.mk (CheckCommandConfig.Path config) in
  let resourceFrontMatter :=
    FrontMatterOptions.mk allowedResourceSubcategories
      (CheckCommandConfig.RequireResourceSubcategory config) in
  let guideFrontMatter :=
    FrontMatterOptions.mk allowedGuideSubcategories
      (CheckCommandConfig.RequireGuideSubcategory config) in
  let contents :=
    ContentsOptions.mk (CheckCommandConfig.EnableContentsCheck config)
      (CheckCommandConfig.RequireSchemaOrdering config) in
  CheckOptions.mk
    (* DataSourceFileMismatch *)
    (FileMismatchOptions.mk ignoreFileMismatchDataSources ignoreFileMissingDataSources
       (CheckCommandConfig.ProviderName config) ResourceTypeDataSource schemaDataSources)
    (* LegacyDataSourceFile *)
    (FrontMatterFileOptions.mk fileOpts resourceFrontMatter)
    (* LegacyGuideFile *)
    (FrontMatterFileOptions.mk fileOpts guideFrontMatter)
    (* LegacyIndexFile *)
    (IndexFileOptions.mk fileOpts)
    (* LegacyResourceFile *)
    (ResourceFileOptions.mk contents fileOpts resourceFrontMatter
       (CheckCommandConfig.ProviderName config))
    (* ProviderName, ProviderSource *)
    (CheckCommandConfig.ProviderName config)
    (CheckCommandConfig.ProviderSource config)
    (* RegistryDataSourceFile *)
    (FrontMatterFileOptions.mk fileOpts resourceFrontMatter)
    (* RegistryGuideFile *)
    (FrontMatterFileOptions.mk fileOpts guideFrontMatter)
    (* RegistryIndexFile *)
    (IndexFileOptions.mk fileOpts)
    (* RegistryResourceFile *)
    (ResourceFileOptions.mk contents fileOpts resourceFrontMatter
       (CheckCommandConfig.ProviderName config))
    (* ResourceFileMismatch *)
    (FileMismatchOptions.mk ignoreFileMismatchResources ignoreFileMissingResources
       (CheckCommandConfig.ProviderName config) ResourceTypeResource schemaResources)
    (* IgnoreCdktfMissingFiles *)
    (CheckCommandConfig.IgnoreCdktfMissingFiles config).

(** Lines 161-169 and 176-184: the subcategories file replaces the comma
    separated list when it is given. *)
Definition allowedFromFile (w : World) (what file : string) (allowed : list string)
  : Cmd (list string) :=
  if decide (file <> "") then
    r <- call (allowedSubcategoriesFile w file) ;;
    let '(allowed, err) := r in
    match err with
    | Some err =>
        emit (UiError ("Error getting allowed " +:+ what +:+ " subcategories: " +:+ err)) ;;
        exit 1
    | None => ret allowed
    end
  else ret allowed.

(** Lines 206-225: the two schema maps. *)
Definition loadSchemas (w : World) (config : CheckCommandConfig.t)
  : Cmd (option (gmap string Schema) * option (gmap string Schema)) :=
  if decide (CheckCommandConfig.ProvidersSchemaJson config <> "") then
    r <- call (providerSchemas w (CheckCommandConfig.ProvidersSchemaJson config)) ;;
    let '(ps, err) := r in
    match err with
    | Some err =>
        emit (UiError ("Error enabling Terraform Provider schema checks: " +:+ err)) ;;
        exit 1
    | None =>
        (if decide (CheckCommandConfig.ProviderName config = "") then
           emit (UiError unknownProviderName) ;; exit 1
         else ret tt) ;;
        schemaDataSources <-
          call (providerSchemasDataSources ps (CheckCommandConfig.ProviderName config)
                  (CheckCommandConfig.ProviderSource config)) ;;
        schemaResources <-
          call (providerSchemasResources ps (CheckCommandConfig.ProviderName config)
                  (CheckCommandConfig.ProviderSource config)) ;;
        ret (schemaDataSources, schemaResources)
    end
  else ret (None, None).

(** Lines 112-116: [if len(args) == 1 { config.Path = args[0] }]. *)
Definition pathArgument (args : list string) (config : CheckCommandConfig.t)
  : CheckCommandConfig.t :=
  match args with
  | [arg] => CheckCommandConfig.setPath arg config
  | _ => config
  end.

Definition Run (w : World) (args : list string) : Cmd Z :=
  match flagsParse w args with
  | inl err => emit (UiInfo (Help w)) ;; exit 1
  | inr (flagValues, args) =>
      (* [Path] is bound to no flag: it still holds its zero value *)
      let config := CheckCommandConfig.setPath "" flagValues in
      let config := pathArgument args config in
      emit (ConfigureLogging Name (CheckCommandConfig.LogLevel config)) ;;
      let config := resolveProviderName w config in
      emit (LogPrintf
              (if decide (CheckCommandConfig.ProviderName config = "") then
                 "[WARN] Unable to determine provider name. Contents and enhanced validations may fail."
               else
                 "[DEBUG] Found provider name: "
                 +:+ CheckCommandConfig.ProviderName config)) ;;
      let '(directories, err) := GetDirectories w (CheckCommandConfig.Path config) in
      match err with
      | Some err =>
          emit (UiError ("Error getting Terraform Provider documentation directories: "
                         +:+ err)) ;;
          exit 1
      | None =>
      (if decide (length directories = 0%nat) then
         emit (UiError
                 (if decide (CheckCommandConfig.Path config = "") then
                    "No Terraform Provider documentation directories found in current path"
                  else
                    "No Terraform Provider documentation directories found in path: "
                    +:+ CheckCommandConfig.Path config)) ;;
         exit 1
       else ret tt) ;;
      allowedGuideSubcategories <-
        allowedFromFile w "guide" (CheckCommandConfig.AllowedGuideSubcategoriesFile config)
          (commaList (CheckCommandConfig.AllowedGuideSubcategories config)) ;;
      allowedResourceSubcategories <-
        allowedFromFile w "resource" (CheckCommandConfig.AllowedResourceSubcategoriesFile config)
          (commaList (CheckCommandConfig.AllowedResourceSubcategories config)) ;;
      let ignoreFileMismatchDataSources :=
        commaList (CheckCommandConfig.IgnoreFileMismatchDataSources config) in
      let ignoreFileMismatchResources :=
        commaList (CheckCommandConfig.IgnoreFileMismatchResources config) in
      let ignoreFileMissingDataSources :=
        commaList (CheckCommandConfig.IgnoreFileMissingDataSources config) in
      let ignoreFileMissingResources :=
        commaList (CheckCommandConfig.IgnoreFileMissingResources config) in
      schemas <- loadSchemas w config ;;
      let '(schemaDataSources, schemaResources) := schemas in
      let checkOpts :=
        checkOptions config allowedGuideSubcategories allowedResourceSubcategories
          ignoreFileMismatchDataSources ignoreFileMismatchResources
          ignoreFileMissingDataSources ignoreFileMissingResources
          schemaDataSources schemaResources in
      emit (NewCheck checkOpts) ;;
      emit (CheckRun directories) ;;
      match Check_Run w checkOpts directories with
      | Some err =>
          emit (UiError ("Error checking Terraform Provider documentation: " +:+ err)) ;;
          exit 1
      | None => ret 0
      end
      end
  end.

(** ** File-mismatch reconciliation *)

Inductive FindingCategory :=
| MismatchFile | MissingFile | FrontMatterInvalid | ContentsMismatch | OrderingViolation.

Global Instance FindingCategory_eq_dec : EqDecision FindingCategory.
Proof. solve_decision. Defined.

(** A finding, without its message. *)
Record Finding := { category : FindingCategory; identifier : string }.

(** [x] names more than one file of [D]. *)
Definition occursTwice (D : list string) (x : string) : Prop :=
  (1 < length (filter (x =.) D))%nat.

Global Instance occursTwice_dec D x : Decision (occursTwice D x).
Proof. unfold occursTwice. apply _. Defined.

(** The identifiers of a list, each once, sorted. *)
Definition sortedSet (l : list string) : list string :=
  merge_sort String.le (elements (list_to_set l : gset string)).

Definition duplicateIdentifiers (D : list string) : list string :=
  filter (occursTwice D) D.

Definition mismatchIdentifiers (D S Im : list string) : list string :=
  filter (λ x, (x ∉ S) ∧ (x ∉ Im)) D.

Definition missingIdentifiers (D S Ii : list string) : list string :=
  filter (λ x, (x ∉ D) ∧ (x ∉ Ii)) S.

(** Modelled from the spec: the File-Mismatch Reconciler of package
    [check], which [Run] configures through the two [FileMismatchOptions]
    and which is declared outside this file.  [D] lists the identifiers
    found on disk, [S] the identifiers of the schema when there is one,
    [Im] and [Ii] are the two ignore lists.  An identifier on disk that
    is absent from the schema and from [Im] is a mismatch; an identifier
    of the schema that is absent from disk and from [Ii] is missing; an
    identifier that names two files is a mismatch whatever the ignore
    lists say, and is the only thing reported without a schema.  The
    findings form a set and are sorted by identifier. *)
Definition reconcile (D : list string) (S : option (list string))
    (Im Ii : list string) : list Finding :=
  match S with
  | None => Build_Finding MismatchFile <$> sortedSet (duplicateIdentifiers D)
  | Some schema =>
      (Build_Finding MismatchFile
         <$> sortedSet (duplicateIdentifiers D ++ mismatchIdentifiers D schema Im))
      ++ (Build_Finding MissingFile <$> sortedSet (missingIdentifiers D schema Ii))
  end.

(** The reconciliation for the options that [Run] built. *)
Definition FileMismatchCheck_Run (opts : FileMismatchOptions.t)
    (D : list string) (S : option (list string)) : list Finding :=
  reconcile D S (FileMismatchOptions.IgnoreFileMismatch opts)
    (FileMismatchOptions.IgnoreFileMissing opts).

(** * Vocabulary of the properties *)

(** ** Reading the events of a run *)

(** The calls into the check engine. *)
Definition isEngineCall (e : Event) : bool :=
  match e with NewCheck _ | CheckRun _ => true | _ => false end.

Definition engineCalls (t : list Event) : list Event := List.filter isEngineCall t.

(** The messages passed to [c.Ui.Error]. *)
Definition uiErrors (t : list Event) : list string :=
  omap (fun e => match e with UiError msg => Some msg | _ => None end) t.

(** The keys at which [ps.Schemas] was read. *)
Definition lookups (t : list Event) : list string :=
  omap (fun e => match e with SchemasLookup key => Some key | _ => None end) t.

(** A helper's events hold no call of the engine and no [Ui.Error]. *)
Definition silent (t : list Event) : Prop := engineCalls t = [] ∧ uiErrors t = [].

(** ** Strings *)

(** [c] occurs in [s]. *)
Definition hasChar (c : ascii) (s : string) : Prop :=
  c ∈ String.list_ascii_of_string s.

(** [seg] is the last [/]-separated segment of [src]. *)
Definition isLastSegment (src seg : string) : Prop :=
  ¬ hasChar "/" seg ∧ (src = seg ∨ ∃ pre, src = pre +:+ String "/" seg).

(** ** The stages of a run *)

Section Stages.

Context (w : World).

(** The configuration [Run] works with once the flags are parsed. *)
Definition runConfig (flagValues : CheckCommandConfig.t)
    (args : list string) : CheckCommandConfig.t :=
  resolveProviderName w (pathArgument args (CheckCommandConfig.setPath "" flagValues)).

(** The path whose basename names the provider: the given path, or the
    working directory when none is given. *)
Definition namingPath (config : CheckCommandConfig.t) : string :=
  if decide (CheckCommandConfig.Path config = "") then (Getwd w).1
  else CheckCommandConfig.Path config.

(** The derivation as the documentation words it: the last segment of a
    non-empty provider source, otherwise the basename of the path. *)
Definition derivedAsDocumented (config : CheckCommandConfig.t) : Prop :=
  let name := CheckCommandConfig.ProviderName (resolveProviderName w config) in
  (CheckCommandConfig.ProviderSource config ≠ "" →
   isLastSegment (CheckCommandConfig.ProviderSource config) name) ∧
  (CheckCommandConfig.ProviderSource config = "" →
   name = providerNameFromPath (namingPath config)).

(** The list of allowed subcategories when the file, if any, opens. *)
Definition allowedOf (file listed : string) : list string :=
  if decide (file = "") then commaList listed else File.lines (Open w file).1.

(** The subcategories file, if any, opens. *)
Definition fileOpens (file : string) : Prop :=
  file ≠ "" → (Open w file).2 = None.

Global Instance fileOpens_dec file : Decision (fileOpens file).
Proof. unfold fileOpens. apply _. Defined.

(** The schema file, if any, is read, parsed and validated. *)
Definition schemaLoads (config : CheckCommandConfig.t) : Prop :=
  CheckCommandConfig.ProvidersSchemaJson config ≠ "" →
  (providerSchemas w (CheckCommandConfig.ProvidersSchemaJson config)).2.2 = None.

Global Instance schemaLoads_dec config : Decision (schemaLoads config).
Proof. unfold schemaLoads. apply _. Defined.

(** A provider name is known if a schema file is given. *)
Definition nameKnown (config : CheckCommandConfig.t) : Prop :=
  CheckCommandConfig.ProvidersSchemaJson config ≠ "" →
  CheckCommandConfig.ProviderName config ≠ "".

Global Instance nameKnown_dec config : Decision (nameKnown config).
Proof. unfold nameKnown. apply _. Defined.

(** The two schema maps when the schema file, if any, loads. *)
Definition schemasOf (config : CheckCommandConfig.t)
  : option (gmap string Schema) * option (gmap string Schema) :=
  if decide (CheckCommandConfig.ProvidersSchemaJson config = "") then (None, None)
  else
    let ps := (providerSchemas w (CheckCommandConfig.ProvidersSchemaJson config)).2.1 in
    ((providerSchemasDataSources ps (CheckCommandConfig.ProviderName config)
        (CheckCommandConfig.ProviderSource config)).2,
     (providerSchemasResources ps (CheckCommandConfig.ProviderName config)
        (CheckCommandConfig.ProviderSource config)).2).

(** Directory enumeration succeeds and finds a directory. *)
Definition directoriesFound (config : CheckCommandConfig.t) : Prop :=
  (GetDirectories w (CheckCommandConfig.Path config)).2 = None ∧
  (GetDirectories w (CheckCommandConfig.Path config)).1 ≠ [].

Global Instance directoriesFound_dec config : Decision (directoriesFound config).
Proof. unfold directoriesFound. apply _. Defined.

(** Everything [Run] does before it builds the options succeeds. *)
Definition preflight (config : CheckCommandConfig.t) : Prop :=
  directoriesFound config ∧
  fileOpens (CheckCommandConfig.AllowedGuideSubcategoriesFile config) ∧
  fileOpens (CheckCommandConfig.AllowedResourceSubcategoriesFile config) ∧
  schemaLoads config ∧ nameKnown config.

Global Instance preflight_dec config : Decision (preflight config).
Proof. unfold preflight. apply _. Defined.

(** The options [Run] builds when it gets that far. *)
Definition runOptions (config : CheckCommandConfig.t) : CheckOptions.t :=
  checkOptions config
    (allowedOf (CheckCommandConfig.AllowedGuideSubcategoriesFile config)
       (CheckCommandConfig.AllowedGuideSubcategories config))
    (allowedOf (CheckCommandConfig.AllowedResourceSubcategoriesFile config)
       (CheckCommandConfig.AllowedResourceSubcategories config))
    (commaList (CheckCommandConfig.IgnoreFileMismatchDataSources config))
    (commaList (CheckCommandConfig.IgnoreFileMismatchResources config))
    (commaList (CheckCommandConfig.IgnoreFileMissingDataSources config))
    (commaList (CheckCommandConfig.IgnoreFileMissingResources config))
    (schemasOf config).1 (schemasOf config).2.

Definition runDirectories (config : CheckCommandConfig.t) : list string :=
  (GetDirectories w (CheckCommandConfig.Path config)).1.

(** How a run with parsed flags ends: the messages passed to [Ui.Error],
    the calls of the engine, and the value returned. *)
Inductive Outcome (config : CheckCommandConfig.t)
  : list string → list Event → Z → Prop :=
| DirectoriesError e :
    (GetDirectories w (CheckCommandConfig.Path config)).2 = Some e →
    Outcome config
      ["Error getting Terraform Provider documentation directories: " +:+ e] [] 1
| NoDirectories :
    GetDirectories w (CheckCommandConfig.Path config) = ([], None) →
    Outcome config
      [if decide (CheckCommandConfig.Path config = "") then
         "No Terraform Provider documentation directories found in current path"
       else
         "No Terraform Provider documentation directories found in path: "
         +:+ CheckCommandConfig.Path config] [] 1
| GuideFileError msg :
    directoriesFound config →
    ¬ fileOpens (CheckCommandConfig.AllowedGuideSubcategoriesFile config) →
    Outcome config [msg] [] 1
| ResourceFileError msg :
    directoriesFound config →
    fileOpens (CheckCommandConfig.AllowedGuideSubcategoriesFile config) →
    ¬ fileOpens (CheckCommandConfig.AllowedResourceSubcategoriesFile config) →
    Outcome config [msg] [] 1
| SchemaError e :
    directoriesFound config →
    fileOpens (CheckCommandConfig.AllowedGuideSubcategoriesFile config) →
    fileOpens (CheckCommandConfig.AllowedResourceSubcategoriesFile config) →
    ¬ schemaLoads config →
    (providerSchemas w (CheckCommandConfig.ProvidersSchemaJson config)).2.2 = Some e →
    Outcome config ["Error enabling Terraform Provider schema checks: " +:+ e] [] 1
| UnknownProvider :
    directoriesFound config →
    fileOpens (CheckCommandConfig.AllowedGuideSubcategoriesFile config) →
    fileOpens (CheckCommandConfig.AllowedResourceSubcategoriesFile config) →
    schemaLoads config → ¬ nameKnown config →
    Outcome config [unknownProviderName] [] 1
| EngineError e :
    preflight config →
    Check_Run w (runOptions config) (runDirectories config) = Some e →
    Outcome config ["Error checking Terraform Provider documentation: " +:+ e]
      [NewCheck (runOptions config); CheckRun (runDirectories config)] 1
| EnginePassed :
    preflight config →
    Check_Run w (runOptions config) (runDirectories config) = None →
    Outcome config []
      [NewCheck (runOptions config); CheckRun (runDirectories config)] 0.

(** [Outcome] read off a computation. *)
Definition OutcomeOf (config : CheckCommandConfig.t) (c : Cmd Z) : Prop :=
  Outcome config (uiErrors (events c)) (engineCalls (events c)) (result c).

(** What counts as a failure of a run. *)
Inductive Failure (args : list string) : Prop :=
| FlagParseError e :
    flagsParse w args = inl e → Failure args
| DirectoryEnumerationError flagValues rest e :
    flagsParse w args = inr (flagValues, rest) →
    (GetDirectories w (CheckCommandConfig.Path (runConfig flagValues rest))).2 = Some e →
    Failure args
| EmptyDirectoryList flagValues rest :
    flagsParse w args = inr (flagValues, rest) →
    GetDirectories w (CheckCommandConfig.Path (runConfig flagValues rest)) = ([], None) →
    Failure args
| GuideSubcategoriesNotOpened flagValues rest e :
    flagsParse w args = inr (flagValues, rest) →
    let file :=
      CheckCommandConfig.AllowedGuideSubcategoriesFile (runConfig flagValues rest) in
    file ≠ "" → (Open w file).2 = Some e → Failure args
| ResourceSubcategoriesNotOpened flagValues rest e :
    flagsParse w args = inr (flagValues, rest) →
    let file :=
      CheckCommandConfig.AllowedResourceSubcategoriesFile (runConfig flagValues rest) in
    file ≠ "" → (Open w file).2 = Some e → Failure args
| SchemaUnreadable flagValues rest e :
    flagsParse w args = inr (flagValues, rest) →
    let path := CheckCommandConfig.ProvidersSchemaJson (runConfig flagValues rest) in
    path ≠ "" → (ReadFile w path).2 = Some e → Failure args
| SchemaUnparsable flagValues rest e :
    flagsParse w args = inr (flagValues, rest) →
    let path := CheckCommandConfig.ProvidersSchemaJson (runConfig flagValues rest) in
    path ≠ "" → (ReadFile w path).2 = None →
    (Unmarshal w (ReadFile w path).1).2 = Some e → Failure args
| SchemaInvalid flagValues rest e :
    flagsParse w args = inr (flagValues, rest) →
    let path := CheckCommandConfig.ProvidersSchemaJson (runConfig flagValues rest) in
    path ≠ "" → (ReadFile w path).2 = None →
    (Unmarshal w (ReadFile w path).1).2 = None →
    Validate w (Unmarshal w (ReadFile w path).1).1 = Some e → Failure args
| ProviderNameUnresolved flagValues rest :
    flagsParse w args = inr (flagValues, rest) →
    CheckCommandConfig.ProvidersSchemaJson (runConfig flagValues rest) ≠ "" →
    CheckCommandConfig.ProviderName (runConfig flagValues rest) = "" →
    Failure args
| EngineFinding opts directories e :
    NewCheck opts ∈ events (Run w args) →
    CheckRun directories ∈ events (Run w args) →
    Check_Run w opts directories = Some e → Failure args.

(** [providerSchemas] fails on [path]: the file cannot be read, or its
    content does not parse, or the parsed structure does not validate. *)
Definition schemaFileFails (path : string) : Prop :=
  (ReadFile w path).2 ≠ None
  ∨ (ReadFile w path).2 = None ∧ (Unmarshal w (ReadFile w path).1).2 ≠ None
  ∨ (ReadFile w path).2 = None ∧ (Unmarshal w (ReadFile w path).1).2 = None
    ∧ Validate w (Unmarshal w (ReadFile w path).1).1 ≠ None.

End Stages.

(** [key] is a key of the schema map of [ps]. *)
Definition schemaMapHas (ps : ProviderSchemas.t) (key : string) : Prop :=
  ∃ schemas, ProviderSchemas.Schemas ps = Some schemas ∧ is_Some (schemas !! key).

(** The identifiers of the findings of one category. *)
Definition identifiersOf (c : FindingCategory) (findings : list Finding) : gset string :=
  list_to_set (identifier <$> filter (λ f, category f = c) findings).

(** ** Sample environments *)

Definition awsSchemas : ProviderSchemas.t :=
  ProviderSchemas.mk "1.0"
    (Some {[ "registry.terraform.io/hashicorp/aws" :=
               ProviderSchema.mk
                 (Some {[ "aws_instance" := {| attributes := ["ami"; "id"] |} ]})
                 (Some {[ "aws_ami" := {| attributes := ["id"] |} ]}) ]}).

(** A machine whose working directory is a provider checkout, with one
    documentation directory, a subcategories file that fails after its
    second line, and a schema file; every argument is positional and
    [flagValues] are the values of the flags. *)
Definition sampleWorld (flagValues : CheckCommandConfig.t)
    (directories : list string) (engine : option error) : World :=
  {| Help := "Usage: tfproviderdocs check [options] [PATH]";
     flagsParse := fun args =>
       if decide ("-bad" ∈ args) then inl "flag provided but not defined: -bad"
       else inr (flagValues, args);
     Getwd := ("/home/dev/terraform-provider-aws", None);
     GetDirectories := fun path =>
       if decide (path = "/missing") then ([], Some "no such directory")
       else (directories, None);
     Open := fun path =>
       if decide (path = "subcategories.txt")
       then (File.mk ["Compute"; "Storage"] (Some "read error"), None)
       else (File.mk [] None, Some "no such file");
     ReadFile := fun path =>
       if decide (path = "schema.json") then ("{}", None)
       else if decide (path = "broken.json") then ("{", None)
       else if decide (path = "old.json") then ("{ }", None)
       else ("", Some "no such file");
     Unmarshal := fun content =>
       if decide (content = "{") then (ProviderSchemas.mk "" None, Some "unexpected end of JSON input")
       else if decide (content = "{ }") then (ProviderSchemas.mk "" None, None)
       else (awsSchemas, None);
     Validate := fun ps =>
       if decide (ProviderSchemas.FormatVersion ps = "")
       then Some "unexpected provider schema data, format version is missing"
       else None;
     checkDirectories := fun _ _ => engine |}.

Definition sourceAndPath (source path : string) : CheckCommandConfig.t :=
  CheckCommandConfig.mk "" "" "" "" false false "" "" "" "" "" path "" source ""
    false false false.

Definition schemaFlags (json : string) : CheckCommandConfig.t :=
  CheckCommandConfig.mk "" "" "" "" false false "" "" "" "" "" "" "" "" json
    false false false.

Definition orderingFlags : CheckCommandConfig.t :=
  CheckCommandConfig.mk "" "" "" "" false false "" "" "" "" "" "" "" "" ""
    false false true.

Definition otherProviderFlags : CheckCommandConfig.t :=
  CheckCommandConfig.mk "" "" "" "" false false "" "" "" "" "" "" "google" ""
    "schema.json" false false false.

(** [-ignore-file-mismatch-resources=legacy -ignore-file-missing-resources=subnet]. *)
Definition ignoreFlags : CheckCommandConfig.t :=
  CheckCommandConfig.mk "" "" "" "" false false "" "legacy" "" "subnet" "" "" "" "" ""
    false false false.

Definition guideFileFlags (file : string) : CheckCommandConfig.t :=
  CheckCommandConfig.mk "" file "" "" false false "" "" "" "" "" "" "" "" ""
    false false false.

(** [-allowed-guide-subcategories=Compute,Networking] together with
    [-allowed-guide-subcategories-file=subcategories.txt]. *)
Definition bothGuideFlags : CheckCommandConfig.t :=
  CheckCommandConfig.mk "Compute,Networking" "subcategories.txt" "" "" false false
    "" "" "" "" "" "" "" "" "" false false false.

(** [-provider-source=registry.terraform.io/hashicorp/aws
    -providers-schema-json=schema.json]. *)
Definition awsFlags : CheckCommandConfig.t :=
  CheckCommandConfig.mk "" "" "" "" false false "" "" "" "" "" "" ""
    "registry.terraform.io/hashicorp/aws" "schema.json" false false false.

(** The environment [w] started from another working directory. *)
Definition withGetwd (cwd : string * option error) (w : World) : World :=
  {| Help := Help w;
     flagsParse := flagsParse w;
     Getwd := cwd;
     GetDirectories := GetDirectories w;
     Open := Open w;
     ReadFile := ReadFile w;
     Unmarshal := Unmarshal w;
     Validate := Validate w;
     checkDirectories := checkDirectories w |}.

(** * Properties *)

Ltac no_such_char :=
  unfold hasChar; simpl; rewrite !elem_of_cons, elem_of_nil; intuition discriminate.

Ltac in_events :=
  apply list_elem_of_In; vm_compute; repeat (first [left; reflexivity | right]).

(** ** Examples *)

Example providerNameFromPath_aws :
  providerNameFromPath "/src/terraform-provider-aws/" = "aws".
Proof. reflexivity. Qed.

Example providerNameFromPath_dot :
  providerNameFromPath "/src/terraform-provider-aws.git" = "".
Proof. reflexivity. Qed.

Example Split_trailing : strings.Split "a,b," ","%char = ["a"; "b"; ""].
Proof. reflexivity. Qed.

Example Split_empty : strings.Split "" ","%char = [""].
Proof. reflexivity. Qed.

Example Base_examples :
  map filepath.Base [""; "/"; "///"; "a/b"; "a/b//"; "abc"] =
  ["."; "/"; "/"; "b"; "b"; "abc"].
Proof. reflexivity. Qed.

(** ** Strings *)

Section StringFacts.

Lemma append_cons c s t : String c s +:+ t = String c (s +:+ t).
Proof. reflexivity. Qed.

Lemma append_nil_l s : "" +:+ s = s.
Proof. reflexivity. Qed.

Lemma append_nil_r s : s +:+ "" = s.
Proof. induction s as [|c s IH]; [done|]. by rewrite append_cons, IH. Qed.

Lemma append_assoc s t u : (s +:+ t) +:+ u = s +:+ (t +:+ u).
Proof. induction s as [|c s IH]; [done|]. by rewrite !append_cons, IH. Qed.

Lemma hasChar_nil c : ¬ hasChar c "".
Proof. unfold hasChar. simpl. apply not_elem_of_nil. Qed.

Lemma hasChar_cons c d s : hasChar c (String d s) ↔ c = d ∨ hasChar c s.
Proof. unfold hasChar. simpl. apply elem_of_cons. Qed.

Lemma hasByte_spec chars c : strings.hasByte chars c = true ↔ hasChar c chars.
Proof.
  induction chars as [|d chars IH]; simpl.
  - split; [done|]. intros H. by apply hasChar_nil in H.
  - rewrite hasChar_cons. case_decide; [tauto|]. rewrite IH. tauto.
Qed.

Lemma ContainsAny_spec s chars :
  strings.ContainsAny s chars = true ↔ ∃ c, hasChar c s ∧ hasChar c chars.
Proof.
  induction s as [|d s IH]; simpl.
  - split; [done|]. intros (c & H & _). by apply hasChar_nil in H.
  - destruct (strings.hasByte chars d) eqn:Hd.
    + split; [|done]. intros _. exists d. rewrite hasChar_cons.
      split; [by left|]. by apply hasByte_spec.
    + rewrite IH. split.
      * intros (c & ? & ?). exists c. rewrite hasChar_cons. auto.
      * intros (c & [->|?]%hasChar_cons & Hc); [|by exists c].
        apply hasByte_spec in Hc. congruence.
Qed.

Lemma HasPrefix_spec s prefix :
  strings.HasPrefix s prefix = true ↔ ∃ suffix, s = prefix +:+ suffix.
Proof.
  revert s. induction prefix as [|p prefix IH]; intros s; simpl.
  - split; [|done]. intros _. by exists s.
  - destruct s as [|c s].
    + split; [done|]. by intros (suffix & ?).
    + case_decide as Hc.
      * subst c. rewrite IH. split; intros (suffix & Hs); exists suffix.
        -- by rewrite append_cons, Hs.
        -- rewrite append_cons in Hs. by simplify_eq.
      * split; [done|]. intros (suffix & Hs). rewrite append_cons in Hs.
        by simplify_eq.
Qed.

Lemma sliceFrom_append prefix suffix :
  strings.sliceFrom (String.length prefix) (prefix +:+ suffix) = suffix.
Proof. induction prefix as [|p prefix IH]; [by destruct suffix|done]. Qed.

Lemma TrimPrefix_append prefix suffix :
  strings.TrimPrefix (prefix +:+ suffix) prefix = suffix.
Proof.
  unfold strings.TrimPrefix.
  assert (strings.HasPrefix (prefix +:+ suffix) prefix = true) as ->
    by (apply HasPrefix_spec; eauto).
  apply sliceFrom_append.
Qed.

Lemma hasChar_append c s t : hasChar c (s +:+ t) ↔ hasChar c s ∨ hasChar c t.
Proof.
  induction s as [|d s IH].
  - rewrite append_nil_l. split; [auto|]. intros [H|H]; [|done].
    by apply hasChar_nil in H.
  - rewrite append_cons, !hasChar_cons, IH. tauto.
Qed.

Lemma last_cons_nonempty {A} (x : A) (l : list A) y :
  last l = Some y → last (x :: l) = Some y.
Proof. destruct l; [done|]. by intros <-. Qed.

Lemma splitFrom_last sep cur s :
  ¬ hasChar sep cur →
  ∃ seg, last (strings.splitFrom sep cur s) = Some seg ∧ ¬ hasChar sep seg ∧
    ((seg = cur +:+ s ∧ ¬ hasChar sep s) ∨ ∃ pre, s = pre +:+ String sep seg).
Proof.
  revert cur. induction s as [|c s IH]; intros cur Hcur; simpl.
  - exists cur. split; [done|]. split; [done|]. left.
    split; [by rewrite append_nil_r|apply hasChar_nil].
  - case_decide as Hc.
    + subst c. destruct (IH "" (hasChar_nil _)) as (seg & Hlast & Hseg & Hs).
      exists seg. split; [by apply last_cons_nonempty|]. split; [done|]. right.
      destruct Hs as [[-> _]|(pre & ->)].
      * by exists "".
      * by exists (String sep pre).
    + destruct (IH (cur +:+ String c "")) as (seg & Hlast & Hseg & Hs).
      { rewrite hasChar_append, hasChar_cons. intros [?|[?|?%hasChar_nil]]; auto. }
      exists seg. split; [done|]. split; [done|].
      destruct Hs as [[-> Hs]|(pre & ->)].
      * left. split; [by rewrite append_assoc|].
        rewrite hasChar_cons. intros [?|?]; auto.
      * right. by exists (String c pre).
Qed.

Lemma Split_lastPart src :
  isLastSegment src (lastPart (strings.Split src "/")).
Proof.
  destruct (splitFrom_last "/" "" src (hasChar_nil _)) as (seg & Hlast & Hseg & Hs).
  unfold lastPart, strings.Split. rewrite Hlast. simpl. split; [done|].
  destruct Hs as [[-> _]|?]; auto.
Qed.

(** The last segment is determined by the string. *)
Lemma isLastSegment_unique src seg1 seg2 :
  isLastSegment src seg1 → isLastSegment src seg2 → seg1 = seg2.
Proof.
  revert seg1 seg2.
  assert (∀ pre seg1 seg2, ¬ hasChar "/" seg1 → ¬ hasChar "/" seg2 →
            seg1 = pre +:+ String "/" seg2 → False) as Hno.
  { intros pre seg1 seg2 H1 _ ->. apply H1.
    rewrite hasChar_append, hasChar_cons. auto. }
  assert (∀ pre1 pre2 seg1 seg2, ¬ hasChar "/" seg1 → ¬ hasChar "/" seg2 →
            pre1 +:+ String "/" seg1 = pre2 +:+ String "/" seg2 → seg1 = seg2) as Hpre.
  { induction pre1 as [|c pre1 IH]; intros [|d pre2] seg1 seg2 H1 H2 Heq.
    - rewrite !append_nil_l in Heq. by simplify_eq.
    - rewrite append_nil_l, append_cons in Heq. simplify_eq.
      by destruct (Hno pre2 _ seg2 H1 H2).
    - rewrite append_nil_l, append_cons in Heq. simplify_eq.
      by destruct (Hno pre1 _ seg1 H2 H1).
    - rewrite !append_cons in Heq. simplify_eq. eauto. }
  intros seg1 seg2 [H1 [->|(pre1 & ->)]] [H2 [Heq|(pre2 & Heq)]].
  - done.
  - by destruct (Hno pre2 _ seg2 H1 H2).
  - by destruct (Hno pre1 _ seg1 H2 H1).
  - eauto.
Qed.

End StringFacts.

(** ** The provider name (lines 120-131, 344-362) *)

Lemma providerNameFromPath_rejected path :
  let base := filepath.Base path in
  hasChar "." base ∨ hasChar "/" base
  ∨ ¬ (∃ suffix, base = "terraform-provider-" +:+ suffix) →
  providerNameFromPath path = "".
Proof.
  intros base H. unfold providerNameFromPath. fold base.
  destruct (strings.ContainsAny base "./") eqn:Hany; [done|].
  destruct (strings.HasPrefix base "terraform-provider-") eqn:Hpre; [|done].
  exfalso. destruct H as [H|[H|H]].
  - assert (strings.ContainsAny base "./" = true); [|congruence].
    apply ContainsAny_spec. exists "."%char. split; [done|].
    rewrite hasChar_cons. auto.
  - assert (strings.ContainsAny base "./" = true); [|congruence].
    apply ContainsAny_spec. exists "/"%char. split; [done|].
    rewrite !hasChar_cons. auto.
  - by apply H, HasPrefix_spec.
Qed.

Lemma providerNameFromPath_suffix path suffix :
  let base := filepath.Base path in
  ¬ hasChar "." base → ¬ hasChar "/" base →
  base = "terraform-provider-" +:+ suffix →
  providerNameFromPath path = suffix.
Proof.
  intros base Hdot Hslash Hbase. unfold providerNameFromPath. fold base.
  destruct (strings.ContainsAny base "./") eqn:Hany.
  - apply ContainsAny_spec in Hany as (c & Hc & Hin).
    rewrite !hasChar_cons in Hin.
    destruct Hin as [->|[->|?%hasChar_nil]]; done.
  - rewrite Hbase, TrimPrefix_append.
    assert (strings.HasPrefix ("terraform-provider-" +:+ suffix)
              "terraform-provider-" = true) as ->; [|done].
    apply HasPrefix_spec. eauto.
Qed.

Lemma resolveProviderName_from_path w config :
  CheckCommandConfig.ProviderName config = "" →
  lastPart (strings.Split (CheckCommandConfig.ProviderSource config) "/") = "" →
  CheckCommandConfig.ProviderName (resolveProviderName w config) =
  providerNameFromPath (namingPath w config).
Proof.
  intros Hname Hseg. unfold resolveProviderName, namingPath.
  rewrite (decide_True _ _ Hname), Hseg.
  unfold providerNameFromCurrentDirectory. destruct (Getwd w) as [cwd ?].
  destruct config; simpl in *; subst.
  repeat (case_decide; simpl in *); congruence.
Qed.

Lemma resolveProviderName_from_source w config :
  CheckCommandConfig.ProviderName config = "" →
  CheckCommandConfig.ProviderSource config ≠ "" →
  lastPart (strings.Split (CheckCommandConfig.ProviderSource config) "/") ≠ "" →
  CheckCommandConfig.ProviderName (resolveProviderName w config) =
  lastPart (strings.Split (CheckCommandConfig.ProviderSource config) "/").
Proof.
  intros Hname Hsrc Hseg. unfold resolveProviderName.
  rewrite (decide_True _ _ Hname), (decide_True _ _ Hsrc).
  destruct config; simpl in *; subst.
  by rewrite (decide_False _ _ Hseg).
Qed.

(** C4, as stated, fails: with provider source [hashicorp/] the last
    segment is empty, and [Run] goes on to take the name [aws] from the
    path [/src/terraform-provider-aws]. *)
Lemma provider_name_trailing_slash :
  let w := sampleWorld CheckCommandConfig.zero ["docs"] None in
  let config := sourceAndPath "hashicorp/" "/src/terraform-provider-aws" in
  CheckCommandConfig.ProviderName config = "" ∧
  CheckCommandConfig.ProviderName (resolveProviderName w config) = "aws" ∧
  ¬ derivedAsDocumented w config.
Proof.
  split; [done|]. split; [done|].
  intros [H _]. specialize (H ltac:(done)).
  pose proof (isLastSegment_unique _ _ _ H (Split_lastPart "hashicorp/")) as Heq.
  vm_compute in Heq. discriminate.
Qed.

(** C4 (amended): when no provider name is configured, the name is the
    last [/]-separated segment of the provider source if that segment is
    not empty; if the provider source is empty or ends in [/], the name
    comes from the basename of the given path (of the working directory
    when no path is given): it is the text after [terraform-provider-],
    and it is empty when the basename lacks that prefix or contains [.]
    or [/]. *)
Theorem resolveProviderName_derived w config :
  CheckCommandConfig.ProviderName config = "" →
  let name := CheckCommandConfig.ProviderName (resolveProviderName w config) in
  let base := filepath.Base (namingPath w config) in
  ∃ seg, isLastSegment (CheckCommandConfig.ProviderSource config) seg ∧
    (CheckCommandConfig.ProviderSource config ≠ "" → seg ≠ "" → name = seg) ∧
    (CheckCommandConfig.ProviderSource config = "" ∨ seg = "" →
       (hasChar "." base ∨ hasChar "/" base
        ∨ ¬ (∃ suffix, base = "terraform-provider-" +:+ suffix) → name = "") ∧
       (∀ suffix, ¬ hasChar "." base → ¬ hasChar "/" base →
          base = "terraform-provider-" +:+ suffix → name = suffix)).
Proof.
  intros Hname name base.
  exists (lastPart (strings.Split (CheckCommandConfig.ProviderSource config) "/")).
  split; [apply Split_lastPart|]. split.
  - intros. by apply resolveProviderName_from_source.
  - intros Hseg.
    assert (lastPart (strings.Split (CheckCommandConfig.ProviderSource config) "/") = "")
      as Hempty by (destruct Hseg as [->|]; done).
    unfold name. rewrite (resolveProviderName_from_path _ _ Hname Hempty). split.
    + apply providerNameFromPath_rejected.
    + intros suffix. apply providerNameFromPath_suffix.
Qed.

Lemma resolveProviderName_derived_witness :
  let w := sampleWorld CheckCommandConfig.zero ["docs"] None in
  CheckCommandConfig.ProviderName
    (resolveProviderName w (sourceAndPath "registry.terraform.io/hashicorp/aws" "")) = "aws"
  ∧ CheckCommandConfig.ProviderName
      (resolveProviderName w (sourceAndPath "" "/src/terraform-provider-google")) = "google".
Proof.
  intros w. split.
  - destruct (resolveProviderName_derived w
                (sourceAndPath "registry.terraform.io/hashicorp/aws" "") eq_refl)
      as (seg & Hseg & Hsrc & _).
    assert (seg = "aws") as ->.
    { apply (isLastSegment_unique _ _ _ Hseg). split.
      - no_such_char.
      - right. by exists "registry.terraform.io/hashicorp". }
    apply Hsrc; done.
  - destruct (resolveProviderName_derived w
                (sourceAndPath "" "/src/terraform-provider-google") eq_refl)
      as (seg & _ & _ & Hpath).
    destruct Hpath as [_ Hpath]; [by left|]. apply Hpath.
    + change (¬ hasChar "." "terraform-provider-google"). no_such_char.
    + change (¬ hasChar "/" "terraform-provider-google"). no_such_char.
    + reflexivity.
Defined.

(** ** allowedSubcategoriesFile (lines 320-342) *)

Lemma scanLoop_app pending allowedSubcategories :
  scanLoop pending allowedSubcategories = allowedSubcategories ++ pending.
Proof.
  revert allowedSubcategories.
  induction pending as [|text pending IH]; intros acc; simpl.
  - by rewrite app_nil_r.
  - by rewrite IH, <- app_assoc.
Qed.

Lemma allowedSubcategoriesFile_open_error w path file e :
  Open w path = (file, Some e) →
  (allowedSubcategoriesFile w path).2 =
  ([], Some ("error opening allowed subcategories file (" +:+ path +:+ "): " +:+ e)).
Proof. intros H. unfold allowedSubcategoriesFile. by rewrite H. Qed.

(** C10: once [os.Open] succeeds, [allowedSubcategoriesFile] returns a
    nil error whatever the scanner ran into: the test after the loop reads
    the error of [os.Open] again, so a file whose reading fails part-way
    yields the lines read so far and no error. *)
Theorem allowedSubcategoriesFile_opened w path file :
  Open w path = (file, None) →
  (allowedSubcategoriesFile w path).2 = (File.lines file, None).
Proof.
  intros H. unfold allowedSubcategoriesFile. rewrite H.
  by rewrite scanLoop_app.
Qed.

Lemma allowedSubcategoriesFile_opened_witness :
  let w := sampleWorld CheckCommandConfig.zero ["docs"] None in
  File.readErr (Open w "subcategories.txt").1 = Some "read error" ∧
  (allowedSubcategoriesFile w "subcategories.txt").2 = (["Compute"; "Storage"], None).
Proof.
  intros w. split; [reflexivity|].
  apply (allowedSubcategoriesFile_opened w "subcategories.txt"
           (File.mk ["Compute"; "Storage"] (Some "read error"))).
  reflexivity.
Defined.

Lemma allowedSubcategoriesFile_events w path :
  (allowedSubcategoriesFile w path).1 =
  [LogPrintf ("[DEBUG] Loading allowed subcategories file: " +:+ path)].
Proof.
  unfold allowedSubcategoriesFile.
  destruct (Open w path) as [file [e|]]; done.
Qed.

(** ** The schema lookups (lines 387-445) *)

Lemma lookups_app t1 t2 : lookups (t1 ++ t2) = lookups t1 ++ lookups t2.
Proof. apply omap_app. Qed.

Lemma lookupProvider_lookups schemas providerName providerSource :
  lookups (lookupProvider schemas providerName providerSource).1 =
  providerSource ::
    (if decide (schemas !! providerSource = None) then [providerName] else []).
Proof.
  unfold lookupProvider.
  destruct (schemas !! providerSource) as [p|]; done.
Qed.

Lemma lookupProvider_result schemas providerName providerSource :
  (lookupProvider schemas providerName providerSource).2 =
  match schemas !! providerSource with
  | Some provider => Some provider
  | None => schemas !! providerName
  end.
Proof.
  unfold lookupProvider.
  destruct (schemas !! providerSource) as [p|]; done.
Qed.

Lemma providerSchemasDataSources_lookups ps schemas providerName providerSource :
  ProviderSchemas.Schemas ps = Some schemas →
  lookups (providerSchemasDataSources (Some ps) providerName providerSource).1 =
  lookups (lookupProvider schemas providerName providerSource).1.
Proof.
  intros H. unfold providerSchemasDataSources. rewrite H.
  destruct (lookupProvider _ _ _) as [log [p|]]; simpl;
    by rewrite lookups_app, app_nil_r.
Qed.

Lemma providerSchemasResources_lookups ps schemas providerName providerSource :
  ProviderSchemas.Schemas ps = Some schemas →
  lookups (providerSchemasResources (Some ps) providerName providerSource).1 =
  lookups (lookupProvider schemas providerName providerSource).1.
Proof.
  intros H. unfold providerSchemasResources. rewrite H.
  destruct (lookupProvider _ _ _) as [log [p|]]; simpl;
    by rewrite lookups_app, app_nil_r.
Qed.

Lemma providerSchemasDataSources_result ps schemas providerName providerSource :
  ProviderSchemas.Schemas ps = Some schemas →
  (providerSchemasDataSources (Some ps) providerName providerSource).2 =
  (lookupProvider schemas providerName providerSource).2
    ≫= ProviderSchema.DataSourceSchemas.
Proof.
  intros H. unfold providerSchemasDataSources. rewrite H.
  destruct (lookupProvider _ _ _) as [log [p|]]; done.
Qed.

Lemma providerSchemasResources_result ps schemas providerName providerSource :
  ProviderSchemas.Schemas ps = Some schemas →
  (providerSchemasResources (Some ps) providerName providerSource).2 =
  (lookupProvider schemas providerName providerSource).2
    ≫= ProviderSchema.ResourceSchemas.
Proof.
  intros H. unfold providerSchemasResources. rewrite H.
  destruct (lookupProvider _ _ _) as [log [p|]]; done.
Qed.

(** C3: with a non-nil schema map, both functions read [ps.Schemas] at
    [providerSource] first, and read it at [providerName] exactly when
    the [providerSource] key is absent; the provider found that way is
    the one whose map is returned. *)
Theorem provider_lookup_falls_back ps schemas providerName providerSource :
  ProviderSchemas.Schemas ps = Some schemas →
  let dataSources := providerSchemasDataSources (Some ps) providerName providerSource in
  let resources := providerSchemasResources (Some ps) providerName providerSource in
  let provider :=
    match schemas !! providerSource with
    | Some provider => Some provider
    | None => schemas !! providerName
    end in
  ∃ more,
    lookups dataSources.1 = providerSource :: more ∧
    lookups resources.1 = providerSource :: more ∧
    (more = [providerName] ↔ schemas !! providerSource = None) ∧
    (more = [] ↔ is_Some (schemas !! providerSource)) ∧
    dataSources.2 = provider ≫= ProviderSchema.DataSourceSchemas ∧
    resources.2 = provider ≫= ProviderSchema.ResourceSchemas.
Proof.
  intros H dataSources resources provider.
  exists (if decide (schemas !! providerSource = None) then [providerName] else []).
  unfold dataSources, resources, provider.
  rewrite (providerSchemasDataSources_lookups _ _ _ _ H),
    (providerSchemasResources_lookups _ _ _ _ H),
    (providerSchemasDataSources_result _ _ _ _ H),
    (providerSchemasResources_result _ _ _ _ H),
    lookupProvider_lookups, lookupProvider_result.
  repeat split; try done.
  - by case_decide.
  - intros ->. by rewrite decide_True.
  - case_decide as Hs; [done|]. intros _. by apply not_eq_None_Some.
  - intros [p Hp]. rewrite decide_False; [done|]. by rewrite Hp.
Qed.

Lemma provider_lookup_falls_back_witness :
  lookups (providerSchemasDataSources (Some awsSchemas) "aws"
             "registry.terraform.io/hashicorp/aws").1
  = ["registry.terraform.io/hashicorp/aws"] ∧
  lookups (providerSchemasResources (Some awsSchemas) "aws" "hashicorp/aws").1
  = ["hashicorp/aws"; "aws"].
Proof.
  destruct (provider_lookup_falls_back awsSchemas
              {[ "registry.terraform.io/hashicorp/aws" :=
                   ProviderSchema.mk
                     (Some {[ "aws_instance" := {| attributes := ["ami"; "id"] |} ]})
                     (Some {[ "aws_ami" := {| attributes := ["id"] |} ]}) ]}
              "aws" "registry.terraform.io/hashicorp/aws" eq_refl)
    as (more & H1 & _ & _ & Hmore & _).
  split; [|reflexivity].
  rewrite H1. f_equal. apply Hmore. by eexists.
Defined.

(** ** The course of a run *)

Section RunFacts.

Context (w : World).

Lemma engineCalls_app t1 t2 : engineCalls (t1 ++ t2) = engineCalls t1 ++ engineCalls t2.
Proof. apply List.filter_app. Qed.

Lemma uiErrors_app t1 t2 : uiErrors (t1 ++ t2) = uiErrors t1 ++ uiErrors t2.
Proof. apply omap_app. Qed.

Lemma silent_app t1 t2 : silent t1 → silent t2 → silent (t1 ++ t2).
Proof.
  intros [H1 H2] [H3 H4]. split.
  - by rewrite engineCalls_app, H1, H3.
  - by rewrite uiErrors_app, H2, H4.
Qed.

Lemma providerSchemas_events path :
  (providerSchemas w path).1 =
  [LogPrintf ("[DEBUG] Loading providers schema JSON file: " +:+ path)].
Proof.
  unfold providerSchemas.
  destruct (ReadFile w path) as [content [e|]]; [done|].
  destruct (Unmarshal w content) as [ps [e|]]; [done|].
  destruct (Validate w ps); done.
Qed.

Lemma lookupProvider_silent schemas providerName providerSource :
  silent (lookupProvider schemas providerName providerSource).1.
Proof. unfold lookupProvider. destruct (schemas !! providerSource); done. Qed.

Lemma providerSchemasDataSources_silent ps providerName providerSource :
  silent (providerSchemasDataSources ps providerName providerSource).1.
Proof.
  unfold providerSchemasDataSources. destruct ps as [ps|]; [|done].
  destruct (ProviderSchemas.Schemas ps) as [schemas|]; [|done].
  pose proof (lookupProvider_silent schemas providerName providerSource) as H.
  destruct (lookupProvider _ _ _) as [log [p|]]; by apply silent_app.
Qed.

Lemma providerSchemasResources_silent ps providerName providerSource :
  silent (providerSchemasResources ps providerName providerSource).1.
Proof.
  unfold providerSchemasResources. destruct ps as [ps|]; [|done].
  destruct (ProviderSchemas.Schemas ps) as [schemas|]; [|done].
  pose proof (lookupProvider_silent schemas providerName providerSource) as H.
  destruct (lookupProvider _ _ _) as [log [p|]]; by apply silent_app.
Qed.

(** *** The subcategories files *)

Lemma allowedFromFile_none what allowed :
  allowedFromFile w what "" allowed = ([], inr allowed).
Proof. done. Qed.

Lemma allowedFromFile_opened what file allowed f :
  file ≠ "" → Open w file = (f, None) →
  allowedFromFile w what file allowed =
  ([LogPrintf ("[DEBUG] Loading allowed subcategories file: " +:+ file)],
   inr (File.lines f)).
Proof.
  intros Hfile Hopen. unfold allowedFromFile. rewrite (decide_True _ _ Hfile).
  unfold call. rewrite allowedSubcategoriesFile_events.
  assert ((allowedSubcategoriesFile w file).2 = (File.lines f, None)) as ->; [|done].
  unfold allowedSubcategoriesFile. rewrite Hopen. by rewrite scanLoop_app.
Qed.

Lemma allowedFromFile_failed what file allowed f e :
  file ≠ "" → Open w file = (f, Some e) →
  allowedFromFile w what file allowed =
  ([LogPrintf ("[DEBUG] Loading allowed subcategories file: " +:+ file);
    UiError ("Error getting allowed " +:+ what +:+ " subcategories: "
             +:+ "error opening allowed subcategories file (" +:+ file +:+ "): " +:+ e)],
   inl 1).
Proof.
  intros Hfile Hopen. unfold allowedFromFile. rewrite (decide_True _ _ Hfile).
  unfold call. rewrite allowedSubcategoriesFile_events.
  by rewrite (allowedSubcategoriesFile_open_error _ _ _ _ Hopen).
Qed.

Lemma allowedFromFile_cases what file listed :
  (fileOpens w file ∧ ∃ t, silent t ∧
     allowedFromFile w what file (commaList listed) = (t, inr (allowedOf w file listed)))
  ∨ (¬ fileOpens w file ∧ ∃ t msg, engineCalls t = [] ∧ uiErrors t = [msg] ∧
       allowedFromFile w what file (commaList listed) = (t, inl 1)).
Proof.
  unfold fileOpens, allowedOf. destruct (decide (file = "")) as [->|Hfile].
  - left. split; [done|]. by exists [].
  - destruct (Open w file) as [f [e|]] eqn:Hopen.
    + right. split; [naive_solver|].
      rewrite (allowedFromFile_failed _ _ _ _ _ Hfile Hopen).
      eexists _, _. split_and!; [| |reflexivity]; reflexivity.
    + left. split; [done|].
      rewrite (allowedFromFile_opened _ _ _ _ Hfile Hopen).
      eexists. split; [|reflexivity]. done.
Qed.

(** *** The schema file *)

Lemma loadSchemas_cases config :
  (schemaLoads w config ∧ nameKnown config ∧ ∃ t, silent t ∧
     loadSchemas w config = (t, inr (schemasOf w config)))
  ∨ (¬ schemaLoads w config ∧ ∃ t e, engineCalls t = [] ∧
       (providerSchemas w (CheckCommandConfig.ProvidersSchemaJson config)).2.2 = Some e ∧
       uiErrors t = ["Error enabling Terraform Provider schema checks: " +:+ e] ∧
       loadSchemas w config = (t, inl 1))
  ∨ (schemaLoads w config ∧ ¬ nameKnown config ∧ ∃ t, engineCalls t = [] ∧
       uiErrors t = [unknownProviderName] ∧ loadSchemas w config = (t, inl 1)).
Proof.
  unfold schemaLoads, nameKnown, schemasOf, loadSchemas.
  destruct (decide (CheckCommandConfig.ProvidersSchemaJson config = "")) as [Hjson|Hjson].
  { left. rewrite decide_False by naive_solver.
    split; [done|]. split; [done|]. by exists []. }
  rewrite (decide_True _ _ Hjson). unfold call.
  rewrite providerSchemas_events.
  destruct (providerSchemas w _).2 as [ps [e|]] eqn:Hps; simpl.
  - right. left. split; [naive_solver|].
    eexists _, e. split_and!; [| | |reflexivity]; done.
  - destruct (decide (CheckCommandConfig.ProviderName config = "")) as [Hname|Hname]; simpl.
    + right. right. split; [done|]. split; [naive_solver|].
      eexists. split_and!; [| |reflexivity]; done.
    + left. split; [done|]. split; [done|].
      pose proof (providerSchemasDataSources_silent ps
                    (CheckCommandConfig.ProviderName config)
                    (CheckCommandConfig.ProviderSource config)) as Hd.
      pose proof (providerSchemasResources_silent ps
                    (CheckCommandConfig.ProviderName config)
                    (CheckCommandConfig.ProviderSource config)) as Hr.
      destruct (providerSchemasDataSources ps _ _) as [td ds].
      destruct (providerSchemasResources ps _ _) as [tr rs]. simpl in *.
      eexists. split; [|reflexivity].
      apply (silent_app [_]); [done|]. rewrite app_nil_r. by apply silent_app.
Qed.

(** *** The whole run *)

Lemma Run_flag_error args e :
  flagsParse w args = inl e → Run w args = ([UiInfo (Help w)], inl 1).
Proof. intros H. unfold Run. by rewrite H. Qed.

Lemma bind_inr {A B} t (a : A) (k : A → Cmd B) :
  bind (t, inr a) k = (t ++ (k a).1, (k a).2).
Proof. unfold bind. by destruct (k a). Qed.

Lemma OutcomeOf_skip {A} config (c : Cmd A) t a k :
  c = (t, inr a) → silent t → OutcomeOf w config (k a) → OutcomeOf w config (bind c k).
Proof.
  intros -> [He Hu]. rewrite bind_inr. unfold OutcomeOf, events, result. simpl.
  by rewrite uiErrors_app, engineCalls_app, He, Hu.
Qed.

Lemma OutcomeOf_stop {A} config (c : Cmd A) t code k :
  c = (t, inl code) → Outcome w config (uiErrors t) (engineCalls t) code →
  OutcomeOf w config (bind c k).
Proof. by intros ->. Qed.

Lemma Run_outcome args flagValues rest :
  flagsParse w args = inr (flagValues, rest) →
  OutcomeOf w (runConfig w flagValues rest) (Run w args).
Proof.
  intros Hparse. unfold Run. rewrite Hparse.
  change (resolveProviderName w _) with (runConfig w flagValues rest).
  set (config := runConfig w flagValues rest).
  eapply OutcomeOf_skip; [reflexivity|done|].
  eapply OutcomeOf_skip; [reflexivity|done|].
  destruct (GetDirectories w (CheckCommandConfig.Path config))
    as [directories [e|]] eqn:Hdirs.
  { apply DirectoriesError. by rewrite Hdirs. }
  destruct (decide (length directories = 0%nat)) as [Hlen|Hlen].
  { destruct directories; [|done]. apply (NoDirectories w config Hdirs). }
  assert (directoriesFound w config) as Hfound.
  { unfold directoriesFound. rewrite Hdirs. split; [done|]. by destruct directories. }
  assert (runDirectories w config = directories) as Hrd
    by (unfold runDirectories; by rewrite Hdirs).
  eapply OutcomeOf_skip; [reflexivity|done|].
  destruct (allowedFromFile_cases "guide"
              (CheckCommandConfig.AllowedGuideSubcategoriesFile config)
              (CheckCommandConfig.AllowedGuideSubcategories config))
    as [(Hguide & tg & Hsg & ->)|(Hguide & tg & msg & Heg & Hug & ->)].
  2:{ eapply OutcomeOf_stop; [reflexivity|]. rewrite Heg, Hug.
      by apply GuideFileError. }
  eapply OutcomeOf_skip; [reflexivity|done|].
  destruct (allowedFromFile_cases "resource"
              (CheckCommandConfig.AllowedResourceSubcategoriesFile config)
              (CheckCommandConfig.AllowedResourceSubcategories config))
    as [(Hres & tr & Hsr & ->)|(Hres & tr & msg & Her & Hur & ->)].
  2:{ eapply OutcomeOf_stop; [reflexivity|]. rewrite Her, Hur.
      by apply ResourceFileError. }
  eapply OutcomeOf_skip; [reflexivity|done|].
  destruct (loadSchemas_cases config)
    as [(Hload & Hname & ts & Hss & ->)
       |[(Hload & ts & e & Hes & Hps & Hus & ->)
        |(Hload & Hname & ts & Hes & Hus & ->)]].
  2:{ eapply OutcomeOf_stop; [reflexivity|]. rewrite Hes, Hus.
      by apply SchemaError. }
  2:{ eapply OutcomeOf_stop; [reflexivity|]. rewrite Hes, Hus.
      by apply UnknownProvider. }
  eapply OutcomeOf_skip; [reflexivity|done|].
  assert (preflight w config) as Hpre by done.
  rewrite (surjective_pairing (schemasOf w config)).
  change (checkOptions config _ _ _ _ _ _ _ _) with (runOptions w config).
  rewrite <- Hrd.
  unfold OutcomeOf, events, result.
  destruct (Check_Run w (runOptions w config) (runDirectories w config)) as [e|] eqn:Hrun;
    simpl.
  - by apply EngineError.
  - by apply EnginePassed.
Qed.

Lemma NoDirectories_not_found config :
  GetDirectories w (CheckCommandConfig.Path config) = ([], None) →
  ¬ directoriesFound w config.
Proof. intros H [_ Hne]. by rewrite H in Hne. Qed.

Lemma DirectoriesError_not_found config e :
  (GetDirectories w (CheckCommandConfig.Path config)).2 = Some e →
  ¬ directoriesFound w config.
Proof. intros H [Hnone _]. congruence. Qed.

(** When everything before the engine succeeds, the engine is called
    once, with the options and directories of the run, and decides the
    result. *)
Lemma Run_preflight_passed args flagValues rest :
  flagsParse w args = inr (flagValues, rest) →
  let config := runConfig w flagValues rest in
  preflight w config →
  engineCalls (events (Run w args)) =
    [NewCheck (runOptions w config); CheckRun (runDirectories w config)] ∧
  uiErrors (events (Run w args)) =
    match Check_Run w (runOptions w config) (runDirectories w config) with
    | Some e => ["Error checking Terraform Provider documentation: " +:+ e]
    | None => []
    end ∧
  result (Run w args) =
    match Check_Run w (runOptions w config) (runDirectories w config) with
    | Some _ => 1
    | None => 0
    end.
Proof.
  intros Hparse config (Hfound & Hguide & Hres & Hload & Hname).
  pose proof (Run_outcome _ _ _ Hparse) as H. unfold OutcomeOf in H.
  fold config in H.
  inversion H as [e He| Hd |msg ? Hn|msg ? ? Hn|e ? ? ? Hn|? ? ? ? Hn|e ? Hr|? Hr].
  - by destruct (DirectoriesError_not_found _ _ He).
  - by destruct (NoDirectories_not_found _ Hd).
  - done.
  - done.
  - done.
  - done.
  - by rewrite Hr.
  - by rewrite Hr.
Qed.

(** When something before the engine fails, the run reports one error
    and returns 1 without calling the engine. *)
Lemma Run_preflight_failed args flagValues rest :
  flagsParse w args = inr (flagValues, rest) →
  ¬ preflight w (runConfig w flagValues rest) →
  engineCalls (events (Run w args)) = [] ∧
  result (Run w args) = 1 ∧
  ∃ msg, uiErrors (events (Run w args)) = [msg].
Proof.
  intros Hparse Hpre.
  pose proof (Run_outcome _ _ _ Hparse) as H. unfold OutcomeOf in H.
  inversion H; try by eauto.
Qed.

(** The first failure decides the message. *)
Lemma Run_unknown_provider args flagValues rest :
  flagsParse w args = inr (flagValues, rest) →
  let config := runConfig w flagValues rest in
  directoriesFound w config →
  fileOpens w (CheckCommandConfig.AllowedGuideSubcategoriesFile config) →
  fileOpens w (CheckCommandConfig.AllowedResourceSubcategoriesFile config) →
  schemaLoads w config → ¬ nameKnown config →
  uiErrors (events (Run w args)) = [unknownProviderName].
Proof.
  intros Hparse config Hfound Hguide Hres Hload Hname.
  pose proof (Run_outcome _ _ _ Hparse) as H. unfold OutcomeOf in H.
  fold config in H.
  inversion H as [e He| Hd |msg ? Hn|msg ? ? Hn|e ? ? ? Hn|? ? ? ? Hn|e Hp Hr|Hp Hr];
    try done.
  - by destruct (DirectoriesError_not_found _ _ He).
  - by destruct (NoDirectories_not_found _ Hd).
  - destruct Hp as (_ & _ & _ & _ & ?). done.
  - destruct Hp as (_ & _ & _ & _ & ?). done.
Qed.

Lemma Run_schema_error args flagValues rest :
  flagsParse w args = inr (flagValues, rest) →
  let config := runConfig w flagValues rest in
  directoriesFound w config →
  fileOpens w (CheckCommandConfig.AllowedGuideSubcategoriesFile config) →
  fileOpens w (CheckCommandConfig.AllowedResourceSubcategoriesFile config) →
  ¬ schemaLoads w config →
  ∃ e, (providerSchemas w (CheckCommandConfig.ProvidersSchemaJson config)).2.2 = Some e ∧
    uiErrors (events (Run w args)) =
    ["Error enabling Terraform Provider schema checks: " +:+ e].
Proof.
  intros Hparse config Hfound Hguide Hres Hload.
  pose proof (Run_outcome _ _ _ Hparse) as H. unfold OutcomeOf in H.
  fold config in H.
  inversion H as [e He| Hd |msg ? Hn|msg ? ? Hn|e ? ? ? Hn Hps|? ? ? ? Hn|e Hp Hr|Hp Hr];
    try done.
  - by destruct (DirectoriesError_not_found _ _ He).
  - by destruct (NoDirectories_not_found _ Hd).
  - eauto.
  - destruct Hp as (_ & _ & _ & ? & _). done.
  - destruct Hp as (_ & _ & _ & ? & _). done.
Qed.

Lemma engineCalls_elem_of (e : Event) t :
  e ∈ t → isEngineCall e = true → e ∈ engineCalls t.
Proof.
  intros Hin He. apply list_elem_of_In, List.filter_In.
  split; [by apply list_elem_of_In|done].
Qed.

Lemma runConfig_flags flagValues rest :
  let config := runConfig w flagValues rest in
  CheckCommandConfig.EnableContentsCheck config
  = CheckCommandConfig.EnableContentsCheck flagValues
  ∧ CheckCommandConfig.RequireSchemaOrdering config
    = CheckCommandConfig.RequireSchemaOrdering flagValues
  ∧ CheckCommandConfig.ProvidersSchemaJson config
    = CheckCommandConfig.ProvidersSchemaJson flagValues.
Proof.
  unfold runConfig, resolveProviderName, pathArgument.
  destruct rest as [|arg [|]]; repeat case_decide; done.
Qed.

End RunFacts.

(** ** Claims about [Run] *)

Lemma providerSchemas_fails w path :
  schemaFileFails w path ↔ (providerSchemas w path).2.2 ≠ None.
Proof.
  unfold schemaFileFails, providerSchemas.
  destruct (ReadFile w path) as [content [e|]]; simpl; [naive_solver|].
  destruct (Unmarshal w content) as [ps [e|]]; simpl; [naive_solver|].
  destruct (Validate w ps); simpl; intuition congruence.
Qed.

Lemma providerSchemas_error_value w path e :
  (providerSchemas w path).2.2 = Some e → (providerSchemas w path).2 = (None, Some e).
Proof.
  unfold providerSchemas.
  destruct (ReadFile w path) as [content [e1|]]; simpl; [by intros [= <-]|].
  destruct (Unmarshal w content) as [ps [e2|]]; simpl; [by intros [= <-]|].
  destruct (Validate w ps); simpl; [by intros [= <-]|done].
Qed.

Lemma not_fileOpens w file :
  ¬ fileOpens w file ↔ file ≠ "" ∧ (Open w file).2 ≠ None.
Proof.
  unfold fileOpens. split.
  - intros H. destruct (decide (file = "")) as [->|?]; [by destruct H|].
    split; [done|]. intros Hnone. by apply H.
  - intros [Hfile Hne] H. by apply Hne, H.
Qed.

Lemma preflight_no_failure w args flagValues rest :
  flagsParse w args = inr (flagValues, rest) →
  preflight w (runConfig w flagValues rest) →
  Check_Run w (runOptions w (runConfig w flagValues rest))
    (runDirectories w (runConfig w flagValues rest)) = None →
  ¬ Failure w args.
Proof.
  intros Hparse Hpre Hrun HF.
  destruct (Run_preflight_passed w _ _ _ Hparse Hpre) as (Hcalls & _ & _).
  destruct Hpre as ([Hd1 Hd2] & Hguide & Hres & Hload & Hname).
  assert (∀ path, path = CheckCommandConfig.ProvidersSchemaJson (runConfig w flagValues rest) →
            path ≠ "" → schemaFileFails w path → False) as Hschema.
  { intros path -> Hne Hfail. apply providerSchemas_fails in Hfail. by apply Hfail, Hload. }
  destruct HF as [e He|fv r e Hp He|fv r Hp He|fv r e Hp file Hne He
                 |fv r e Hp file Hne He|fv r e Hp path Hne He
                 |fv r e Hp path Hne Hr He|fv r e Hp path Hne Hr Hu He
                 |fv r Hp Hne He|opts dirs e Hnew Hcall He];
    try (rewrite Hparse in Hp; injection Hp as <- <-).
  - congruence.
  - congruence.
  - rewrite He in Hd2. done.
  - specialize (Hguide Hne). fold file in Hguide. congruence.
  - specialize (Hres Hne). fold file in Hres. congruence.
  - apply (Hschema path eq_refl Hne). left. congruence.
  - apply (Hschema path eq_refl Hne). right. left. split; [done|]. congruence.
  - apply (Hschema path eq_refl Hne). right. right. split_and!; [done..|]. congruence.
  - by apply Hname.
  - apply engineCalls_elem_of in Hnew; [|done].
    apply engineCalls_elem_of in Hcall; [|done].
    rewrite Hcalls in Hnew, Hcall.
    rewrite !elem_of_cons, elem_of_nil in Hnew, Hcall.
    destruct Hnew as [[= ->]|[?|[]]]; [|done].
    destruct Hcall as [?|[[= ->]|[]]]; [done|].
    congruence.
Qed.

Lemma not_preflight_failure w args flagValues rest :
  flagsParse w args = inr (flagValues, rest) →
  ¬ preflight w (runConfig w flagValues rest) →
  Failure w args.
Proof.
  intros Hparse Hpre. set (config := runConfig w flagValues rest) in *.
  destruct (decide (directoriesFound w config)) as [Hfound|Hfound].
  2:{ unfold directoriesFound in Hfound.
      destruct (GetDirectories w (CheckCommandConfig.Path config))
        as [dirs [e|]] eqn:Hdirs.
      - apply (DirectoryEnumerationError w args flagValues rest e Hparse).
        change ((GetDirectories w (CheckCommandConfig.Path config)).2 = Some e).
        by rewrite Hdirs.
      - destruct dirs; [by eapply EmptyDirectoryList|].
        by destruct Hfound. }
  destruct (decide (fileOpens w (CheckCommandConfig.AllowedGuideSubcategoriesFile config)))
    as [Hguide|Hguide].
  2:{ apply not_fileOpens in Hguide as [Hne He].
      destruct (Open w _).2 as [e|] eqn:Hopen; [|done].
      by eapply GuideSubcategoriesNotOpened. }
  destruct (decide (fileOpens w (CheckCommandConfig.AllowedResourceSubcategoriesFile config)))
    as [Hres|Hres].
  2:{ apply not_fileOpens in Hres as [Hne He].
      destruct (Open w _).2 as [e|] eqn:Hopen; [|done].
      by eapply ResourceSubcategoriesNotOpened. }
  destruct (decide (CheckCommandConfig.ProvidersSchemaJson config = "")) as [Hjson|Hjson].
  { destruct Hpre. unfold preflight, schemaLoads, nameKnown. naive_solver. }
  destruct (decide (schemaLoads w config)) as [Hload|Hload].
  2:{ assert (schemaFileFails w (CheckCommandConfig.ProvidersSchemaJson config)) as Hfail.
      { apply providerSchemas_fails. intros Hnone. apply Hload. by intros _. }
      destruct Hfail as [Hr|[[Hr Hu]|(Hr & Hu & Hv)]].
      - destruct (ReadFile w _).2 as [e|] eqn:He; [|done].
        by eapply SchemaUnreadable.
      - destruct (Unmarshal w _).2 as [e|] eqn:He; [|done].
        by eapply SchemaUnparsable.
      - destruct (Validate w _) as [e|] eqn:He; [|done].
        by eapply SchemaInvalid. }
  destruct (decide (CheckCommandConfig.ProviderName config = "")) as [Hname|Hname].
  { by eapply ProviderNameUnresolved. }
  destruct Hpre. unfold preflight, nameKnown. naive_solver.
Qed.

(** [Run] returns 0 or 1, and it returns 0 exactly when none of these
    occurred: a flag-parse error, a directory-enumeration error, an empty
    directory list, a subcategories file that cannot be opened, a schema
    file that cannot be read, parsed or validated, an unresolved provider
    name while a schema file is given, an error reported by the check
    engine.  A subcategories file that opens and then fails to be read is
    not among them. *)
Theorem Run_result w args :
  (result (Run w args) = 0 ∨ result (Run w args) = 1) ∧
  (result (Run w args) = 0 ↔ ¬ Failure w args).
Proof.
  destruct (flagsParse w args) as [e|[flagValues rest]] eqn:Hparse.
  { rewrite (Run_flag_error _ _ _ Hparse). split; [by right|].
    split; [done|]. intros H. destruct H. by eapply FlagParseError. }
  destruct (decide (preflight w (runConfig w flagValues rest))) as [Hpre|Hpre].
  - destruct (Run_preflight_passed w _ _ _ Hparse Hpre) as (Hcalls & _ & ->).
    destruct (Check_Run w _ _) as [e|] eqn:Hrun.
    + split; [by right|]. split; [done|]. intros H. destruct H.
      eapply EngineFinding; [| |exact Hrun]; rewrite list_elem_of_In;
        eapply (proj1 (List.filter_In isEngineCall _ _));
        fold (engineCalls (events (Run w args))); rewrite Hcalls;
        apply list_elem_of_In; rewrite !elem_of_cons; auto.
    + split; [by left|]. split; [|done]. intros _.
      by eapply preflight_no_failure.
  - destruct (Run_preflight_failed w _ _ _ Hparse Hpre) as (_ & -> & _).
    split; [by right|]. split; [done|]. intros H. destruct H.
    by eapply not_preflight_failure.
Qed.

Lemma engineCalls_nil t e :
  engineCalls t = [] → isEngineCall e = true → e ∉ t.
Proof.
  intros Hnil He Hin. apply engineCalls_elem_of in Hin; [|done].
  rewrite Hnil in Hin. by apply elem_of_nil in Hin.
Qed.

Lemma nameKnown_unresolved config :
  CheckCommandConfig.ProvidersSchemaJson config ≠ "" →
  CheckCommandConfig.ProviderName config = "" →
  ¬ nameKnown config.
Proof. intros Hjson Hname H. by apply H. Qed.

(** C5: when a schema file is given and no provider name can be
    determined, the run returns 1 with one error reported and the check
    engine is never called; the error is the unknown-provider-name
    message whenever the steps that come first (directory enumeration,
    subcategories files, loading the schema file) succeed. *)
Theorem unknown_provider_stops_run w args flagValues rest :
  flagsParse w args = inr (flagValues, rest) →
  let config := runConfig w flagValues rest in
  CheckCommandConfig.ProvidersSchemaJson config ≠ "" →
  CheckCommandConfig.ProviderName config = "" →
  result (Run w args) = 1 ∧
  engineCalls (events (Run w args)) = [] ∧
  (∃ msg, uiErrors (events (Run w args)) = [msg]) ∧
  (directoriesFound w config →
   fileOpens w (CheckCommandConfig.AllowedGuideSubcategoriesFile config) →
   fileOpens w (CheckCommandConfig.AllowedResourceSubcategoriesFile config) →
   schemaLoads w config →
   uiErrors (events (Run w args)) = [unknownProviderName]).
Proof.
  intros Hparse config Hjson Hname.
  pose proof (nameKnown_unresolved config Hjson Hname) as Hunknown.
  destruct (Run_preflight_failed w _ _ _ Hparse) as (Hcalls & Hres & Hmsg).
  { intros (_ & _ & _ & _ & ?). done. }
  split_and!; [done..|].
  intros. by apply (Run_unknown_provider w _ _ _ Hparse).
Qed.

Lemma unknown_provider_stops_run_witness :
  let w := sampleWorld (schemaFlags "schema.json") ["/tmp/docs/r"] None in
  result (Run w ["/tmp/docs"]) = 1 ∧
  engineCalls (events (Run w ["/tmp/docs"])) = [] ∧
  uiErrors (events (Run w ["/tmp/docs"])) = [unknownProviderName].
Proof.
  intros w.
  destruct (unknown_provider_stops_run w ["/tmp/docs"] (schemaFlags "schema.json")
              ["/tmp/docs"] eq_refl) as (Hres & Hcalls & _ & Hmsg).
  - vm_compute. discriminate.
  - reflexivity.
  - split_and!; [done..|]. apply Hmsg.
    + split; vm_compute; [reflexivity|discriminate].
    + intros H. by destruct H.
    + intros H. by destruct H.
    + intros _. reflexivity.
Defined.

(** C6: when the schema file cannot be read, or its content does not
    parse, or the parsed structure does not validate, [providerSchemas]
    returns an error, and a run given that file returns 1 with one error
    reported and without calling the check engine; the error is the one
    of [providerSchemas] whenever directory enumeration and the
    subcategories files succeed. *)
Theorem schema_error_stops_run w path :
  schemaFileFails w path →
  ∃ e, (providerSchemas w path).2 = (None, Some e) ∧
    ∀ args flagValues rest,
      flagsParse w args = inr (flagValues, rest) →
      let config := runConfig w flagValues rest in
      CheckCommandConfig.ProvidersSchemaJson config = path → path ≠ "" →
      result (Run w args) = 1 ∧
      engineCalls (events (Run w args)) = [] ∧
      (∃ msg, uiErrors (events (Run w args)) = [msg]) ∧
      (directoriesFound w config →
       fileOpens w (CheckCommandConfig.AllowedGuideSubcategoriesFile config) →
       fileOpens w (CheckCommandConfig.AllowedResourceSubcategoriesFile config) →
       uiErrors (events (Run w args)) =
       ["Error enabling Terraform Provider schema checks: " +:+ e]).
Proof.
  intros Hfail. apply providerSchemas_fails in Hfail.
  destruct (providerSchemas w path).2.2 as [e|] eqn:He; [|done].
  exists e. split; [by apply providerSchemas_error_value|].
  intros args flagValues rest Hparse config Hpath Hne.
  assert (¬ schemaLoads w config) as Hload.
  { intros H. unfold schemaLoads in H. rewrite Hpath in H.
    specialize (H Hne). congruence. }
  destruct (Run_preflight_failed w _ _ _ Hparse) as (Hcalls & Hres & Hmsg).
  { intros (_ & _ & _ & ? & _). done. }
  split_and!; [done..|].
  intros Hfound Hguide Hresource.
  destruct (Run_schema_error w _ _ _ Hparse Hfound Hguide Hresource Hload)
    as (e' & He' & ->).
  fold config in He'. rewrite Hpath in He'. congruence.
Qed.

Lemma schema_error_stops_run_witness :
  let w := sampleWorld (schemaFlags "old.json") ["docs/r"] None in
  (ReadFile w "old.json").2 = None ∧
  (Unmarshal w (ReadFile w "old.json").1).2 = None ∧
  (providerSchemas w "old.json").2.1 = None ∧
  result (Run w []) = 1 ∧ engineCalls (events (Run w [])) = [].
Proof.
  intros w. split; [reflexivity|]. split; [reflexivity|].
  destruct (schema_error_stops_run w "old.json") as (e & He & Hrun).
  - right. right. split_and!; [reflexivity..|]. vm_compute. discriminate.
  - split; [by rewrite He|].
    destruct (Hrun [] (schemaFlags "old.json") [] eq_refl eq_refl) as (? & ? & _).
    + discriminate.
    + done.
Defined.

(** C7: a configuration that requires schema ordering without enabling
    the contents check never passes: the run returns 1, and when it gets
    as far as the check engine, the engine receives both flags unchanged
    in the legacy and in the registry resource options and rejects them
    in its configuration validation. *)
Theorem ordering_requires_contents w args flagValues rest :
  flagsParse w args = inr (flagValues, rest) →
  CheckCommandConfig.RequireSchemaOrdering flagValues = true →
  CheckCommandConfig.EnableContentsCheck flagValues = false →
  let config := runConfig w flagValues rest in
  let opts := runOptions w config in
  result (Run w args) = 1 ∧
  (preflight w config →
   engineCalls (events (Run w args)) = [NewCheck opts; CheckRun (runDirectories w config)] ∧
   ResourceFileOptions.Contents (CheckOptions.LegacyResourceFile opts)
   = ContentsOptions.mk false true ∧
   ResourceFileOptions.Contents (CheckOptions.RegistryResourceFile opts)
   = ContentsOptions.mk false true ∧
   ∃ e, validateOptions opts = Some e ∧
     uiErrors (events (Run w args)) =
     ["Error checking Terraform Provider documentation: " +:+ e]).
Proof.
  intros Hparse Hordering Hcontents config opts.
  destruct (runConfig_flags w flagValues rest) as (Hc & Ho & _).
  fold config in Hc, Ho. rewrite Hcontents in Hc. rewrite Hordering in Ho.
  assert (ResourceFileOptions.Contents (CheckOptions.LegacyResourceFile opts)
          = ContentsOptions.mk false true) as Hlegacy.
  { unfold opts, runOptions, checkOptions. simpl. by rewrite Hc, Ho. }
  assert (ResourceFileOptions.Contents (CheckOptions.RegistryResourceFile opts)
          = ContentsOptions.mk false true) as Hregistry.
  { unfold opts, runOptions, checkOptions. simpl. by rewrite Hc, Ho. }
  assert (∃ e, validateOptions opts = Some e) as [e He].
  { unfold validateOptions. rewrite Hlegacy. by eexists. }
  assert (Check_Run w opts (runDirectories w config) = Some e) as Hrun.
  { unfold Check_Run. by rewrite He. }
  destruct (decide (preflight w config)) as [Hpre|Hpre].
  - destruct (Run_preflight_passed w _ _ _ Hparse Hpre) as (Hcalls & Hmsg & Hres).
    fold config opts in Hcalls, Hmsg, Hres. rewrite Hrun in Hmsg, Hres.
    split; [done|]. intros _. split_and!; [done..|]. by exists e.
  - destruct (Run_preflight_failed w _ _ _ Hparse Hpre) as (_ & Hres & _).
    split; [done|]. intros. done.
Qed.

Lemma ordering_requires_contents_witness :
  let w := sampleWorld orderingFlags ["docs/r"] None in
  checkDirectories w (runOptions w (runConfig w orderingFlags []))
    (runDirectories w (runConfig w orderingFlags [])) = None ∧
  result (Run w []) = 1 ∧
  uiErrors (events (Run w [])) =
  ["Error checking Terraform Provider documentation: schema ordering requires the contents check to be enabled"].
Proof.
  intros w. split; [reflexivity|].
  destruct (ordering_requires_contents w [] orderingFlags [] eq_refl eq_refl eq_refl)
    as (Hres & Hpre).
  split; [done|]. destruct Hpre as (_ & _ & _ & e & He & ->).
  - split_and!; [split; vm_compute; [reflexivity|discriminate]
                |intros H; by destruct H ..].
  - vm_compute in He. by injection He as <-.
Defined.

Lemma providerSchemas_not_found ps providerName providerSource :
  ¬ schemaMapHas ps providerSource → ¬ schemaMapHas ps providerName →
  (providerSchemasDataSources (Some ps) providerName providerSource).2 = None ∧
  (providerSchemasResources (Some ps) providerName providerSource).2 = None.
Proof.
  intros Hsource Hname.
  unfold providerSchemasDataSources, providerSchemasResources.
  destruct (ProviderSchemas.Schemas ps) as [schemas|] eqn:Hs; [|done].
  assert (schemas !! providerSource = None) as Hs1.
  { apply eq_None_not_Some. intros H. apply Hsource. by exists schemas. }
  assert (schemas !! providerName = None) as Hs2.
  { apply eq_None_not_Some. intros H. apply Hname. by exists schemas. }
  unfold lookupProvider. by rewrite Hs1, Hs2.
Qed.

(** C8: when the schema file loads and validates but its schema map has
    neither the provider source nor the provider name as a key, both
    lookup functions return nil, and a run that gets that far calls the
    check engine with nil schema maps in both file-mismatch options; the
    result of the run is then the verdict of the engine. *)
Theorem schema_without_provider_runs_engine w args flagValues rest ps :
  flagsParse w args = inr (flagValues, rest) →
  let config := runConfig w flagValues rest in
  let json := CheckCommandConfig.ProvidersSchemaJson config in
  let providerName := CheckCommandConfig.ProviderName config in
  let providerSource := CheckCommandConfig.ProviderSource config in
  json ≠ "" →
  (providerSchemas w json).2 = (Some ps, None) →
  ¬ schemaMapHas ps providerSource → ¬ schemaMapHas ps providerName →
  (providerSchemasDataSources (Some ps) providerName providerSource).2 = None ∧
  (providerSchemasResources (Some ps) providerName providerSource).2 = None ∧
  (directoriesFound w config →
   fileOpens w (CheckCommandConfig.AllowedGuideSubcategoriesFile config) →
   fileOpens w (CheckCommandConfig.AllowedResourceSubcategoriesFile config) →
   providerName ≠ "" →
   ∃ opts directories,
     engineCalls (events (Run w args)) = [NewCheck opts; CheckRun directories] ∧
     FileMismatchOptions.Schemas (CheckOptions.DataSourceFileMismatch opts) = None ∧
     FileMismatchOptions.Schemas (CheckOptions.ResourceFileMismatch opts) = None ∧
     (result (Run w args) = 0 ↔ Check_Run w opts directories = None) ∧
     (result (Run w args) = 1 ↔ Check_Run w opts directories ≠ None)).
Proof.
  intros Hparse config json providerName providerSource Hjson Hps Hsource Hname.
  destruct (providerSchemas_not_found ps providerName providerSource Hsource Hname)
    as [Hds Hrs].
  split; [done|]. split; [done|].
  intros Hfound Hguide Hres Hknown.
  assert (preflight w config) as Hpre.
  { split_and!; try done.
    - intros _. fold json. by rewrite Hps.
    - by intros _. }
  destruct (Run_preflight_passed w _ _ _ Hparse Hpre) as (Hcalls & _ & Hresult).
  fold config in Hcalls, Hresult.
  exists (runOptions w config), (runDirectories w config).
  split; [done|].
  assert (schemasOf w config = (None, None)) as Hschemas.
  { unfold schemasOf. rewrite decide_False by done. cbv zeta. fold json.
    rewrite Hps. cbn [fst snd]. fold providerName providerSource.
    by rewrite Hds, Hrs. }
  split; [by unfold runOptions; rewrite Hschemas|].
  split; [by unfold runOptions; rewrite Hschemas|].
  rewrite Hresult. destruct (Check_Run w _ _); split; split; done.
Qed.

Lemma schema_without_provider_runs_engine_witness :
  let w := sampleWorld otherProviderFlags ["docs/r"] None in
  (providerSchemasDataSources (Some awsSchemas) "google" "").2 = None ∧
  result (Run w []) = 0.
Proof.
  intros w.
  destruct (schema_without_provider_runs_engine w [] otherProviderFlags [] awsSchemas
              eq_refl) as (Hds & _ & Hrun).
  - discriminate.
  - reflexivity.
  - intros (schemas & [= <-] & Hs). vm_compute in Hs. by destruct Hs.
  - intros (schemas & [= <-] & Hs). vm_compute in Hs. by destruct Hs.
  - split; [exact Hds|].
    destruct Hrun as (opts & directories & Hcalls & _ & _ & Hzero & _).
    + split; vm_compute; [reflexivity|discriminate].
    + intros H. by destruct H.
    + intros H. by destruct H.
    + discriminate.
    + apply Hzero. vm_compute in Hcalls. injection Hcalls as <- <-. reflexivity.
Defined.

(** C9: when directory enumeration succeeds with an empty list, [Run]
    reports that no documentation directories were found and returns 1;
    it neither builds check options nor calls the check engine. *)
Theorem no_directories_fails w args flagValues rest :
  flagsParse w args = inr (flagValues, rest) →
  let config := runConfig w flagValues rest in
  GetDirectories w (CheckCommandConfig.Path config) = ([], None) →
  result (Run w args) = 1 ∧
  uiErrors (events (Run w args)) =
    [if decide (CheckCommandConfig.Path config = "") then
       "No Terraform Provider documentation directories found in current path"
     else
       "No Terraform Provider documentation directories found in path: "
       +:+ CheckCommandConfig.Path config] ∧
  (∀ opts, NewCheck opts ∉ events (Run w args)) ∧
  (∀ directories, CheckRun directories ∉ events (Run w args)).
Proof.
  intros Hparse config Hdirs.
  pose proof (Run_outcome w _ _ _ Hparse) as H. unfold OutcomeOf in H.
  fold config in H.
  pose proof (NoDirectories_not_found w config Hdirs) as Hnot.
  assert (result (Run w args) = 1 ∧
          uiErrors (events (Run w args)) =
            [if decide (CheckCommandConfig.Path config = "") then
               "No Terraform Provider documentation directories found in current path"
             else
               "No Terraform Provider documentation directories found in path: "
               +:+ CheckCommandConfig.Path config] ∧
          engineCalls (events (Run w args)) = []) as (Hres & Hmsg & Hcalls).
  { inversion H as [e He| Hd |msg ? Hn|msg ? ? Hn|e ? ? ? Hn Hps|? ? ? ? Hn
                   |e Hp Hr|Hp Hr]; try done.
    - rewrite Hdirs in He. done.
    - by destruct Hp.
    - by destruct Hp. }
  split_and!; [done..| |]; intros; by apply engineCalls_nil.
Qed.

Lemma no_directories_fails_witness :
  let w := sampleWorld CheckCommandConfig.zero [] None in
  result (Run w ["/src/terraform-provider-aws"]) = 1 ∧
  uiErrors (events (Run w ["/src/terraform-provider-aws"])) =
  ["No Terraform Provider documentation directories found in path: /src/terraform-provider-aws"].
Proof.
  intros w.
  destruct (no_directories_fails w ["/src/terraform-provider-aws"]
              CheckCommandConfig.zero ["/src/terraform-provider-aws"] eq_refl eq_refl)
    as (Hres & Hmsg & _).
  split; [exact Hres|exact Hmsg].
Defined.

(** ** File-mismatch reconciliation *)

Example reconcile_example :
  reconcile ["instance"; "bucket"; "old"; "legacy"] (Some ["bucket"; "vpc"; "instance"; "subnet"])
    ["legacy"] ["subnet"]
  = [Build_Finding MismatchFile "old"; Build_Finding MissingFile "vpc"].
Proof. vm_compute. reflexivity. Qed.

Section Reconcile.

Lemma elem_of_sortedSet x l : x ∈ sortedSet l ↔ x ∈ l.
Proof.
  unfold sortedSet. rewrite merge_sort_Permutation, elem_of_elements.
  apply elem_of_list_to_set.
Qed.

Lemma sortedSet_equiv l1 l2 : (∀ x, x ∈ l1 ↔ x ∈ l2) → sortedSet l1 = sortedSet l2.
Proof.
  intros H. unfold sortedSet. f_equal. f_equal. apply set_eq. intros x.
  by rewrite !elem_of_list_to_set.
Qed.

Lemma sortedSet_sorted l : Sorted String.le (sortedSet l).
Proof. apply Sorted_merge_sort, _. Qed.

Lemma occursTwice_Permutation D D' x : D ≡ₚ D' → occursTwice D x ↔ occursTwice D' x.
Proof. intros H. unfold occursTwice. by rewrite H. Qed.

Lemma filter_eq_absent (D : list string) x : x ∉ D → filter (x =.) D = [].
Proof.
  induction D as [|y D IH]; [done|]. rewrite not_elem_of_cons. intros [Hxy Hx].
  rewrite filter_cons_False by done. by apply IH.
Qed.

Lemma NoDup_occurs_once D x : NoDup D → ¬ occursTwice D x.
Proof.
  unfold occursTwice. induction 1 as [|y D Hy HD IH]; simpl; [lia|].
  rewrite filter_cons. case_decide as Hxy; [|done]. subst y.
  rewrite (filter_eq_absent _ _ Hy). simpl. lia.
Qed.

Lemma identifiersOf_app c f1 f2 :
  identifiersOf c (f1 ++ f2) = identifiersOf c f1 ∪ identifiersOf c f2.
Proof.
  unfold identifiersOf. rewrite filter_app, fmap_app. apply list_to_set_app_L.
Qed.

Lemma identifiersOf_same c l :
  identifiersOf c (Build_Finding c <$> l) = list_to_set l.
Proof.
  unfold identifiersOf. apply set_eq. intros x.
  rewrite !elem_of_list_to_set, list_elem_of_fmap. split.
  - intros (f & -> & Hf). apply list_elem_of_filter in Hf as [_ Hf].
    apply list_elem_of_fmap in Hf as (y & -> & Hy). done.
  - intros Hx. exists (Build_Finding c x). split; [done|].
    apply list_elem_of_filter. split; [done|]. by apply list_elem_of_fmap_2.
Qed.

Lemma identifiersOf_other c c' l :
  c ≠ c' → identifiersOf c (Build_Finding c' <$> l) = ∅.
Proof.
  intros Hc. unfold identifiersOf. apply set_eq. intros x.
  rewrite elem_of_list_to_set, list_elem_of_fmap. split; [|set_solver].
  intros (f & -> & Hf). apply list_elem_of_filter in Hf as [Hcat Hf].
  apply list_elem_of_fmap in Hf as (y & -> & Hy). done.
Qed.

Lemma reconcile_Permutation D D' S S' Im Ii :
  D ≡ₚ D' → S ≡ₚ S' → reconcile D' (Some S') Im Ii = reconcile D (Some S) Im Ii.
Proof.
  intros HD HS. unfold reconcile. f_equal; f_equal; apply sortedSet_equiv; intros x.
  - unfold duplicateIdentifiers, mismatchIdentifiers.
    rewrite !elem_of_app, !list_elem_of_filter.
    rewrite (occursTwice_Permutation _ _ x HD), HD, HS. done.
  - unfold missingIdentifiers. rewrite !list_elem_of_filter.
    rewrite HD, HS. done.
Qed.

End Reconcile.

(** C1: for on-disk identifiers [D] (each listed once), schema
    identifiers [S] and the ignore lists [Im] and [Ii] of the options built
    by [Run], the identifiers of the MismatchFile findings are
    [(D \\ S) \\ Im] and those of the MissingFile findings are
    [(S \\ D) \\ Ii], and listing [D] and [S] in another order gives the
    same findings. *)
Theorem reconcile_set_differences opts D S D' S' :
  NoDup D → D ≡ₚ D' → S ≡ₚ S' →
  let Im := FileMismatchOptions.IgnoreFileMismatch opts in
  let Ii := FileMismatchOptions.IgnoreFileMissing opts in
  let findings := FileMismatchCheck_Run opts D (Some S) in
  identifiersOf MismatchFile findings
  = (list_to_set D ∖ list_to_set S) ∖ list_to_set Im ∧
  identifiersOf MissingFile findings
  = (list_to_set S ∖ list_to_set D) ∖ list_to_set Ii ∧
  FileMismatchCheck_Run opts D' (Some S') = findings.
Proof.
  intros HD HDD HSS Im Ii findings. split_and!.
  - unfold findings, FileMismatchCheck_Run, reconcile. fold Im Ii.
    rewrite identifiersOf_app, identifiersOf_same, identifiersOf_other by done.
    apply set_eq. intros x.
    rewrite elem_of_union, elem_of_empty, elem_of_list_to_set, elem_of_sortedSet.
    unfold duplicateIdentifiers, mismatchIdentifiers.
    rewrite elem_of_app, !list_elem_of_filter, !elem_of_difference,
      !elem_of_list_to_set.
    pose proof (NoDup_occurs_once D x HD). tauto.
  - unfold findings, FileMismatchCheck_Run, reconcile. fold Im Ii.
    rewrite identifiersOf_app, identifiersOf_same, identifiersOf_other by done.
    apply set_eq. intros x.
    rewrite elem_of_union, elem_of_empty, elem_of_list_to_set, elem_of_sortedSet.
    unfold missingIdentifiers.
    rewrite !list_elem_of_filter, !elem_of_difference, !elem_of_list_to_set.
    tauto.
  - by apply reconcile_Permutation.
Qed.

Lemma reconcile_set_differences_witness :
  let w := sampleWorld ignoreFlags ["docs/r"] None in
  let opts := CheckOptions.ResourceFileMismatch (runOptions w (runConfig w ignoreFlags [])) in
  identifiersOf MismatchFile
    (FileMismatchCheck_Run opts ["instance"; "bucket"; "old"; "legacy"]
       (Some ["bucket"; "vpc"; "instance"; "subnet"]))
  = {["old"]} ∧
  FileMismatchCheck_Run opts ["legacy"; "old"; "bucket"; "instance"]
    (Some ["subnet"; "instance"; "vpc"; "bucket"])
  = [Build_Finding MismatchFile "old"; Build_Finding MissingFile "vpc"].
Proof.
  intros w opts.
  destruct (reconcile_set_differences opts
              ["instance"; "bucket"; "old"; "legacy"]
              ["bucket"; "vpc"; "instance"; "subnet"]
              ["legacy"; "old"; "bucket"; "instance"]
              ["subnet"; "instance"; "vpc"; "bucket"]) as (Hmis & _ & Hperm).
  - compute_done.
  - symmetry. apply (reverse_Permutation ["instance"; "bucket"; "old"; "legacy"]).
  - symmetry. apply (reverse_Permutation ["bucket"; "vpc"; "instance"; "subnet"]).
  - split.
    + rewrite Hmis. vm_compute. reflexivity.
    + rewrite Hperm. vm_compute. reflexivity.
Defined.

(** C2, at a subcategories file that cannot be read: the file opens, the
    scanner fails after two lines, and [Run] reports nothing, hands the
    two lines to the engine as the allowed guide subcategories, and
    returns 0. *)
Theorem unreadable_subcategories_file_passes :
  let w := sampleWorld (guideFileFlags "subcategories.txt") ["docs/r"] None in
  (Open w "subcategories.txt").2 = None ∧
  File.readErr (Open w "subcategories.txt").1 = Some "read error" ∧
  result (Run w []) = 0 ∧
  uiErrors (events (Run w [])) = [] ∧
  ∃ opts,
    engineCalls (events (Run w [])) = [NewCheck opts; CheckRun ["docs/r"]] ∧
    FrontMatterOptions.AllowedSubcategories
      (FrontMatterFileOptions.FrontMatter (CheckOptions.LegacyGuideFile opts))
    = ["Compute"; "Storage"].
Proof.
  intros w. split_and!; [reflexivity..|].
  eexists. split; [vm_compute; reflexivity|reflexivity].
Qed.


(** * Further properties of the code *)

(** ** providerNameFromPath and the lists of the flags *)

Section PathFacts.

Lemma hasByte_dot_slash c :
  strings.hasByte "./" c = true ↔ c = "."%char ∨ c = "/"%char.
Proof.
  rewrite hasByte_spec, !hasChar_cons. split.
  - intros [?|[?|?%hasChar_nil]]; auto; done.
  - intros [?|?]; auto.
Qed.

Lemma ContainsAny_false_hasChar s c :
  strings.ContainsAny s "./" = false → c = "."%char ∨ c = "/"%char → ¬ hasChar c s.
Proof.
  intros Hany Hc Hin.
  assert (strings.ContainsAny s "./" = true); [|congruence].
  apply ContainsAny_spec. exists c. split; [done|].
  by apply hasByte_spec, hasByte_dot_slash.
Qed.

Lemma providerNameFromPath_chars path :
  ¬ hasChar "." (providerNameFromPath path) ∧
  ¬ hasChar "/" (providerNameFromPath path).
Proof.
  unfold providerNameFromPath. set (base := filepath.Base path).
  destruct (strings.ContainsAny base "./") eqn:Hany.
  { split; apply hasChar_nil. }
  destruct (strings.HasPrefix base "terraform-provider-") eqn:Hpre; simpl.
  2:{ split; apply hasChar_nil. }
  apply HasPrefix_spec in Hpre as (suffix & Hbase).
  rewrite Hbase, TrimPrefix_append.
  split; intros Hin.
  - apply (ContainsAny_false_hasChar base "." Hany); [by left|].
    rewrite Hbase, hasChar_append. by right.
  - apply (ContainsAny_false_hasChar base "/" Hany); [by right|].
    rewrite Hbase, hasChar_append. by right.
Qed.

(** X1: the name [providerNameFromPath] returns never contains [.] or
    [/], whatever the path. *)
Theorem providerNameFromPath_no_dot_no_slash path :
  ¬ hasChar "." (providerNameFromPath path) ∧
  ¬ hasChar "/" (providerNameFromPath path).
Proof. apply providerNameFromPath_chars. Qed.

Lemma stripTrailingSeparators_name name :
  name ≠ "" → ¬ hasChar "/" name → filepath.stripTrailingSeparators name = name.
Proof.
  induction name as [|c name IH]; [done|]. intros _ Hno. simpl.
  rewrite hasChar_cons in Hno.
  destruct name as [|d name].
  - simpl. rewrite decide_False; [done|]. intros ->. apply Hno. by left.
  - rewrite IH; [done|done|]. intros H. apply Hno. by right.
Qed.

Lemma stripTrailingSeparators_append s name :
  name ≠ "" → ¬ hasChar "/" name →
  filepath.stripTrailingSeparators (s +:+ name) = s +:+ name.
Proof.
  intros Hne Hno. induction s as [|c s IH].
  - rewrite append_nil_l. by apply stripTrailingSeparators_name.
  - rewrite append_cons. simpl. rewrite IH.
    destruct (s +:+ name) eqn:Hs; [|done].
    destruct s; [by rewrite append_nil_l in Hs|by rewrite append_cons in Hs].
Qed.

Lemma lastElementFrom_name cur name :
  ¬ hasChar "/" name → filepath.lastElementFrom cur name = cur +:+ name.
Proof.
  revert cur. induction name as [|c name IH]; intros cur Hno; simpl.
  - by rewrite append_nil_r.
  - rewrite hasChar_cons in Hno. rewrite decide_False by (intros ->; apply Hno; by left).
    rewrite IH by (intros H; apply Hno; by right).
    by rewrite append_assoc.
Qed.

Lemma lastElementFrom_append cur s name :
  ¬ hasChar "/" name →
  filepath.lastElementFrom cur (s +:+ String "/" name) = name.
Proof.
  intros Hno. revert cur. induction s as [|c s IH]; intros cur.
  - rewrite append_nil_l. simpl. by rewrite lastElementFrom_name.
  - rewrite append_cons. simpl. case_decide; apply IH.
Qed.

(** The basename of [dir/name] is [name]. *)
Lemma Base_join dir name :
  name ≠ "" → ¬ hasChar "/" name →
  filepath.Base (dir +:+ String "/" name) = name.
Proof.
  intros Hne Hno. unfold filepath.Base.
  rewrite decide_False by (by destruct dir).
  assert (dir +:+ String "/" name = (dir +:+ "/") +:+ name) as Hsplit
    by (by rewrite append_assoc).
  rewrite Hsplit, stripTrailingSeparators_append by done.
  rewrite <- Hsplit, lastElementFrom_append by done.
  by rewrite decide_False.
Qed.

(** X2: the name of a provider checkout is read back from its path: for
    every directory [dir] and every name [n] without [.] and [/],
    [providerNameFromPath] of [dir/terraform-provider-n] is [n]. *)
Theorem providerNameFromPath_checkout dir n :
  ¬ hasChar "." n → ¬ hasChar "/" n →
  providerNameFromPath (dir +:+ "/terraform-provider-" +:+ n) = n.
Proof.
  intros Hdot Hslash.
  assert (∀ c, c = "."%char ∨ c = "/"%char →
               ¬ hasChar c ("terraform-provider-" +:+ n)) as Hclean.
  { intros c Hc. rewrite hasChar_append. intros [Hin|Hin].
    - revert Hin. destruct Hc as [-> | ->]; no_such_char.
    - destruct Hc as [-> | ->]; done. }
  assert (filepath.Base (dir +:+ "/terraform-provider-" +:+ n)
          = "terraform-provider-" +:+ n) as Hbase.
  { apply (Base_join dir ("terraform-provider-" +:+ n)); [done|].
    apply Hclean. by right. }
  apply providerNameFromPath_suffix; rewrite Hbase; [| |done].
  - apply Hclean. by left.
  - apply Hclean. by right.
Qed.

Lemma providerNameFromPath_checkout_witness :
  providerNameFromPath "/home/dev/src/terraform-provider-google-beta" = "google-beta".
Proof.
  apply (providerNameFromPath_checkout "/home/dev/src" "google-beta"); no_such_char.
Defined.

Lemma stripTrailingSeparators_slash path :
  filepath.stripTrailingSeparators (path +:+ "/") = filepath.stripTrailingSeparators path.
Proof.
  induction path as [|c path IH]; [done|].
  rewrite append_cons. simpl. by rewrite IH.
Qed.

(** X3: a trailing [/] on the path does not change the provider name
    taken from it. *)
Theorem providerNameFromPath_trailing_slash path :
  providerNameFromPath (path +:+ "/") = providerNameFromPath path.
Proof.
  destruct path as [|c path]; [done|].
  unfold providerNameFromPath, filepath.Base.
  rewrite !decide_False by done.
  by rewrite stripTrailingSeparators_slash.
Qed.

Lemma splitFrom_nonempty sep cur s : strings.splitFrom sep cur s ≠ [].
Proof. revert cur. induction s as [|c s IH]; intros cur; simpl; [done|]. by case_decide. Qed.

Lemma concat_cons sep x l :
  l ≠ [] → String.concat sep (x :: l) = x +:+ sep +:+ String.concat sep l.
Proof. by destruct l. Qed.

Lemma concat_splitFrom sep cur s :
  String.concat (String sep "") (strings.splitFrom sep cur s) = cur +:+ s.
Proof.
  revert cur. induction s as [|c s IH]; intros cur; simpl.
  - by rewrite append_nil_r.
  - case_decide as Hc.
    + subst c. rewrite concat_cons by apply splitFrom_nonempty. by rewrite IH.
    + rewrite IH. by rewrite append_assoc.
Qed.

Lemma splitFrom_pieces sep cur s :
  ¬ hasChar sep cur → Forall (λ piece, ¬ hasChar sep piece) (strings.splitFrom sep cur s).
Proof.
  revert cur. induction s as [|c s IH]; intros cur Hcur; simpl.
  - by constructor.
  - case_decide as Hc.
    + constructor; [done|]. apply IH, hasChar_nil.
    + apply IH. rewrite hasChar_append, hasChar_cons.
      intros [?|[?|?%hasChar_nil]]; auto.
Qed.

(** X4: the list read from a comma separated flag is empty exactly when
    the flag is empty; its entries contain no comma, are kept as written
    (blanks and empty entries included), and joined with commas they give
    the flag value back. *)
Theorem commaList_join v :
  (commaList v = [] ↔ v = "") ∧
  Forall (λ entry, ¬ hasChar "," entry) (commaList v) ∧
  String.concat "," (commaList v) = v.
Proof.
  unfold commaList. case_decide as Hv.
  - subst v. repeat split; done.
  - split_and!.
    + split; [|done]. intros H. by destruct (splitFrom_nonempty _ _ _ H).
    + apply splitFrom_pieces, hasChar_nil.
    + apply (concat_splitFrom "," "" v).
Qed.

End PathFacts.

(** ** The provider name of the configuration *)

Section NameFacts.

Context (w : World).

Lemma lastPart_empty_source : lastPart (strings.Split "" "/") = "".
Proof. reflexivity. Qed.

(** X5: [resolveProviderName] changes nothing but the provider name,
    leaves a configuration with a provider name as it is, and resolving
    twice is the same as resolving once. *)
Theorem resolveProviderName_idempotent config :
  resolveProviderName w config
  = CheckCommandConfig.setProviderName
      (CheckCommandConfig.ProviderName (resolveProviderName w config)) config ∧
  (CheckCommandConfig.ProviderName config ≠ "" → resolveProviderName w config = config) ∧
  resolveProviderName w (resolveProviderName w config) = resolveProviderName w config.
Proof.
  destruct config as [a1 a2 a3 a4 b1 b2 i1 i2 i3 i4 level path name source json r1 r2 r3].
  unfold resolveProviderName. simpl.
  set (seg := lastPart (strings.Split source "/")).
  set (cwd := providerNameFromCurrentDirectory w).
  set (fromPath := providerNameFromPath path).
  split_and!.
  - repeat (case_decide; simpl in * ); done.
  - intros Hname. repeat (case_decide; simpl in * ); done.
  - repeat (case_decide; simpl in * ); try done; congruence.
Qed.

(** X6: a provider name that [Run] determines itself (none being
    configured) never contains [/]. *)
Theorem resolved_name_no_slash config :
  CheckCommandConfig.ProviderName config = "" →
  ¬ hasChar "/" (CheckCommandConfig.ProviderName (resolveProviderName w config)).
Proof.
  intros Hname.
  destruct (decide (lastPart (strings.Split (CheckCommandConfig.ProviderSource config) "/")
                    = "")) as [Hseg|Hseg].
  - rewrite (resolveProviderName_from_path _ _ Hname Hseg).
    apply providerNameFromPath_chars.
  - rewrite (resolveProviderName_from_source _ _ Hname); [| |done].
    + apply Split_lastPart.
    + intros Hsrc. rewrite Hsrc in Hseg. by apply Hseg.
Qed.

(** X7: the working directory plays no part in the provider name when a
    name is configured, or the provider source ends in a non-empty
    segment, or a path is given. *)
Theorem resolveProviderName_without_cwd cwd config :
  CheckCommandConfig.ProviderName config ≠ ""
  ∨ lastPart (strings.Split (CheckCommandConfig.ProviderSource config) "/") ≠ ""
  ∨ CheckCommandConfig.Path config ≠ "" →
  resolveProviderName (withGetwd cwd w) config = resolveProviderName w config.
Proof.
  destruct config as [a1 a2 a3 a4 b1 b2 i1 i2 i3 i4 level path name source json r1 r2 r3].
  unfold resolveProviderName. simpl.
  intros [Hname|[Hseg|Hpath]].
  - repeat (case_decide; simpl in * ); done.
  - assert (source ≠ "") as Hsource by (intros ->; by apply Hseg).
    repeat (case_decide; simpl in * ); done.
  - repeat (case_decide; simpl in * ); done.
Qed.

End NameFacts.

Lemma resolved_name_no_slash_witness :
  let w := sampleWorld CheckCommandConfig.zero ["docs"] None in
  ¬ hasChar "/"
      (CheckCommandConfig.ProviderName
         (resolveProviderName w (sourceAndPath "registry.terraform.io/hashicorp/aws" ""))).
Proof. intros w. apply resolved_name_no_slash. reflexivity. Defined.

Lemma resolveProviderName_without_cwd_witness :
  let w := sampleWorld CheckCommandConfig.zero ["docs"] None in
  let config := sourceAndPath "" "/src/terraform-provider-google" in
  CheckCommandConfig.ProviderName
    (resolveProviderName (withGetwd ("/home/dev/terraform-provider-azurerm", None) w) config)
  = "google".
Proof.
  intros w config.
  rewrite (resolveProviderName_without_cwd w _ config); [reflexivity|].
  right. right. discriminate.
Defined.

(** ** providerSchemas and the names it logs *)

Section SchemaFacts.

Context (w : World).

(** X8: [providerSchemas] returns either a value or an error, never both
    and never neither; a value is what [json.Unmarshal] produced from the
    content of the file, and it has passed [Validate]. *)
Theorem providerSchemas_value_or_error path :
  let r := (providerSchemas w path).2 in
  (r.1 = None ↔ r.2 ≠ None) ∧
  ∀ ps, r.1 = Some ps →
    (ReadFile w path).2 = None ∧
    Unmarshal w (ReadFile w path).1 = (ps, None) ∧
    Validate w ps = None.
Proof.
  unfold providerSchemas.
  destruct (ReadFile w path) as [content [e|]]; simpl; [by split|].
  destruct (Unmarshal w content) as [ps [e|]]; simpl; [by split|].
  destruct (Validate w ps) eqn:Hv; simpl; [by split|].
  split; [by split|]. intros ps' [= <-]. done.
Qed.




End SchemaFacts.


(** ** The course of a run, continued *)

Section MoreRunFacts.

Context (w : World).

Lemma runConfig_path flagValues rest :
  CheckCommandConfig.Path (runConfig w flagValues rest)
  = match rest with [arg] => arg | _ => "" end.
Proof.
  unfold runConfig, resolveProviderName, pathArgument.
  destruct rest as [|arg [|]]; repeat case_decide; done.
Qed.



Lemma engine_event_inv args e :
  e ∈ events (Run w args) → isEngineCall e = true →
  ∃ flagValues rest,
    flagsParse w args = inr (flagValues, rest) ∧
    preflight w (runConfig w flagValues rest) ∧
    engineCalls (events (Run w args))
    = [NewCheck (runOptions w (runConfig w flagValues rest));
       CheckRun (runDirectories w (runConfig w flagValues rest))] ∧
    (e = NewCheck (runOptions w (runConfig w flagValues rest))
     ∨ e = CheckRun (runDirectories w (runConfig w flagValues rest))).
Proof.
  intros Hin He.
  destruct (flagsParse w args) as [err|[flagValues rest]] eqn:Hparse.
  { rewrite (Run_flag_error _ _ _ Hparse) in Hin. simpl in Hin.
    apply list_elem_of_singleton in Hin. by subst e. }
  exists flagValues, rest. split; [done|].
  destruct (decide (preflight w (runConfig w flagValues rest))) as [Hpre|Hpre].
  - split; [done|].
    destruct (Run_preflight_passed w _ _ _ Hparse Hpre) as (Hcalls & _ & _).
    split; [done|].
    apply engineCalls_elem_of in Hin; [|done]. rewrite Hcalls in Hin.
    rewrite !elem_of_cons, elem_of_nil in Hin. tauto.
  - destruct (Run_preflight_failed w _ _ _ Hparse Hpre) as (Hcalls & _ & _).
    by destruct (engineCalls_nil _ e Hcalls He).
Qed.



(** X12: the engine is called at most once, after its options were
    built, and never on an empty directory list: the directories it
    receives are the non-empty list that [check.GetDirectories] returned
    without error for the path of the configuration. *)
Theorem engine_gets_found_directories args directories :
  CheckRun directories ∈ events (Run w args) →
  directories ≠ [] ∧
  ∃ flagValues rest opts,
    flagsParse w args = inr (flagValues, rest) ∧
    GetDirectories w (match rest with [arg] => arg | _ => "" end) = (directories, None) ∧
    engineCalls (events (Run w args)) = [NewCheck opts; CheckRun directories].
Proof.
  intros Hin.
  destruct (engine_event_inv _ _ Hin eq_refl)
    as (flagValues & rest & Hparse & Hpre & Hcalls & [He|He]); [done|].
  injection He as ->.
  destruct Hpre as ([Herr Hne] & _). rewrite runConfig_path in Herr, Hne.
  unfold runDirectories in *. rewrite runConfig_path in *.
  split; [done|]. exists flagValues, rest, (runOptions w (runConfig w flagValues rest)).
  split; [done|]. split; [|done].
  destruct (GetDirectories w _) as [dirs err]. simpl in *. by subst err.
Qed.

(** X13: an error of [check.GetDirectories] ends the run at once: [Run]
    reports that error and nothing else, returns 1, and the engine is not
    called, whatever the other flags say. *)
Theorem directories_error_stops_run args flagValues rest e :
  flagsParse w args = inr (flagValues, rest) →
  (GetDirectories w (match rest with [arg] => arg | _ => "" end)).2 = Some e →
  result (Run w args) = 1 ∧
  uiErrors (events (Run w args))
  = ["Error getting Terraform Provider documentation directories: " +:+ e] ∧
  engineCalls (events (Run w args)) = [].
Proof.
  intros Hparse Hdirs. rewrite <- runConfig_path with (flagValues := flagValues) in Hdirs.
  pose proof (Run_outcome w _ _ _ Hparse) as H. unfold OutcomeOf in H.
  pose proof (DirectoriesError_not_found w _ _ Hdirs) as Hnot.
  inversion H as [e' He| Hd |msg Hf|msg Hf|e' Hf|Hf|e' Hp Hr|Hp Hr]; try done.
  - rewrite Hdirs in He. by injection He as <-.
  - rewrite Hd in Hdirs. done.
  - by destruct Hp.
  - by destruct Hp.
Qed.

Lemma runConfig_subcategories flagValues rest :
  let config := runConfig w flagValues rest in
  CheckCommandConfig.AllowedGuideSubcategories config
  = CheckCommandConfig.AllowedGuideSubcategories flagValues ∧
  CheckCommandConfig.AllowedGuideSubcategoriesFile config
  = CheckCommandConfig.AllowedGuideSubcategoriesFile flagValues ∧
  CheckCommandConfig.AllowedResourceSubcategories config
  = CheckCommandConfig.AllowedResourceSubcategories flagValues ∧
  CheckCommandConfig.AllowedResourceSubcategoriesFile config
  = CheckCommandConfig.AllowedResourceSubcategoriesFile flagValues.
Proof.
  unfold runConfig, resolveProviderName, pathArgument.
  destruct rest as [|arg [|]]; repeat case_decide; done.
Qed.

Lemma NewCheck_inv args opts :
  NewCheck opts ∈ events (Run w args) →
  ∃ flagValues rest,
    flagsParse w args = inr (flagValues, rest) ∧
    preflight w (runConfig w flagValues rest) ∧
    opts = runOptions w (runConfig w flagValues rest).
Proof.
  intros Hin.
  destruct (engine_event_inv _ _ Hin eq_refl)
    as (flagValues & rest & Hparse & Hpre & _ & [He|He]); [|done].
  injection He as ->. by exists flagValues, rest.
Qed.

(** X14: a subcategories file replaces the comma separated list instead
    of adding to it.  In the options the engine receives, the allowed
    guide (resource) subcategories are the lines of the file when the file
    flag is given, and the entries of the list flag only when it is not. *)
Theorem subcategories_file_replaces_list args flagValues rest opts :
  flagsParse w args = inr (flagValues, rest) →
  NewCheck opts ∈ events (Run w args) →
  let allowed (o : FrontMatterFileOptions.t) :=
    FrontMatterOptions.AllowedSubcategories (FrontMatterFileOptions.FrontMatter o) in
  let fromFlags (file listed : string) :=
    if decide (file = "") then commaList listed else File.lines (Open w file).1 in
  let guide :=
    fromFlags (CheckCommandConfig.AllowedGuideSubcategoriesFile flagValues)
      (CheckCommandConfig.AllowedGuideSubcategories flagValues) in
  let resource :=
    fromFlags (CheckCommandConfig.AllowedResourceSubcategoriesFile flagValues)
      (CheckCommandConfig.AllowedResourceSubcategories flagValues) in
  allowed (CheckOptions.LegacyGuideFile opts) = guide ∧
  allowed (CheckOptions.RegistryGuideFile opts) = guide ∧
  allowed (CheckOptions.LegacyDataSourceFile opts) = resource ∧
  allowed (CheckOptions.RegistryDataSourceFile opts) = resource ∧
  FrontMatterOptions.AllowedSubcategories
    (ResourceFileOptions.FrontMatter (CheckOptions.LegacyResourceFile opts)) = resource ∧
  FrontMatterOptions.AllowedSubcategories
    (ResourceFileOptions.FrontMatter (CheckOptions.RegistryResourceFile opts)) = resource.
Proof.
  intros Hparse Hin allowed fromFlags guide resource.
  destruct (NewCheck_inv _ _ Hin) as (fv & r & Hparse' & _ & ->).
  rewrite Hparse in Hparse'. injection Hparse' as <- <-.
  destruct (runConfig_subcategories flagValues rest) as (H1 & H2 & H3 & H4).
  unfold allowed, guide, resource, fromFlags, runOptions, checkOptions, allowedOf. simpl.
  rewrite H1, H2, H3, H4. done.
Qed.

(** X15: without a schema file an undetermined provider name does not
    stop the run.  Once the directories are found and the subcategories
    files open, the engine is called with nil schema maps and with the
    provider name as resolved, empty or not, and the result of the run is
    the verdict of the engine. *)
Theorem no_schema_file_runs_engine args flagValues rest :
  flagsParse w args = inr (flagValues, rest) →
  CheckCommandConfig.ProvidersSchemaJson flagValues = "" →
  let config := runConfig w flagValues rest in
  directoriesFound w config →
  fileOpens w (CheckCommandConfig.AllowedGuideSubcategoriesFile config) →
  fileOpens w (CheckCommandConfig.AllowedResourceSubcategoriesFile config) →
  ∃ opts,
    engineCalls (events (Run w args)) = [NewCheck opts; CheckRun (runDirectories w config)] ∧
    FileMismatchOptions.Schemas (CheckOptions.DataSourceFileMismatch opts) = None ∧
    FileMismatchOptions.Schemas (CheckOptions.ResourceFileMismatch opts) = None ∧
    CheckOptions.ProviderName opts = CheckCommandConfig.ProviderName config ∧
    (result (Run w args) = 0 ↔ Check_Run w opts (runDirectories w config) = None).
Proof.
  intros Hparse Hjson config Hfound Hguide Hres.
  destruct (runConfig_flags w flagValues rest) as (_ & _ & Hj).
  fold config in Hj. rewrite Hjson in Hj.
  assert (preflight w config) as Hpre.
  { split_and!; try done; intros Hne; by destruct Hne. }
  destruct (Run_preflight_passed w _ _ _ Hparse Hpre) as (Hcalls & _ & Hresult).
  fold config in Hcalls, Hresult.
  exists (runOptions w config). split; [done|].
  assert (schemasOf w config = (None, None)) as Hschemas.
  { unfold schemasOf. by rewrite decide_True. }
  unfold runOptions at 1 2 3. rewrite Hschemas. simpl.
  split_and!; [done..|].
  rewrite Hresult. by destruct (Check_Run w _ _).
Qed.

(** X16: when the schema file loads and holds the provider (under the
    provider source, else under the provider name), the data-source
    mismatch options carry that provider's data source schemas and the
    resource mismatch options carry its resource schemas, each with its
    own resource type. *)
Theorem schema_maps_reach_engine args flagValues rest ps schemas provider opts :
  flagsParse w args = inr (flagValues, rest) →
  NewCheck opts ∈ events (Run w args) →
  let config := runConfig w flagValues rest in
  CheckCommandConfig.ProvidersSchemaJson config ≠ "" →
  (providerSchemas w (CheckCommandConfig.ProvidersSchemaJson config)).2 = (Some ps, None) →
  ProviderSchemas.Schemas ps = Some schemas →
  match schemas !! CheckCommandConfig.ProviderSource config with
  | Some p => Some p
  | None => schemas !! CheckCommandConfig.ProviderName config
  end = Some provider →
  FileMismatchOptions.Schemas (CheckOptions.DataSourceFileMismatch opts)
  = ProviderSchema.DataSourceSchemas provider ∧
  FileMismatchOptions.ResourceType (CheckOptions.DataSourceFileMismatch opts)
  = ResourceTypeDataSource ∧
  FileMismatchOptions.Schemas (CheckOptions.ResourceFileMismatch opts)
  = ProviderSchema.ResourceSchemas provider ∧
  FileMismatchOptions.ResourceType (CheckOptions.ResourceFileMismatch opts)
  = ResourceTypeResource.
Proof.
  intros Hparse Hin config Hjson Hps Hschemas Hprovider.
  destruct (NewCheck_inv _ _ Hin) as (fv & r & Hparse' & _ & ->).
  rewrite Hparse in Hparse'. injection Hparse' as <- <-. fold config.
  assert (schemasOf w config
          = (ProviderSchema.DataSourceSchemas provider,
             ProviderSchema.ResourceSchemas provider)) as Hs.
  { unfold schemasOf. rewrite decide_False by done. cbv zeta.
    rewrite Hps. cbn [fst snd].
    rewrite (providerSchemasDataSources_result _ _ _ _ Hschemas),
      (providerSchemasResources_result _ _ _ _ Hschemas),
      lookupProvider_result, Hprovider. done. }
  unfold runOptions. rewrite Hs. done.
Qed.

(** X17: the options the engine receives treat the legacy and the
    registry layout alike and name one provider and one base path: the
    options of the two layouts are equal file kind by file kind, the
    provider name is the same in the five places that hold it, and every
    base path is the positional argument when exactly one is given and
    empty otherwise. *)
Theorem engine_options_agree args flagValues rest opts :
  flagsParse w args = inr (flagValues, rest) →
  NewCheck opts ∈ events (Run w args) →
  let path := match rest with [arg] => arg | _ => "" end in
  CheckOptions.LegacyDataSourceFile opts = CheckOptions.RegistryDataSourceFile opts ∧
  CheckOptions.LegacyGuideFile opts = CheckOptions.RegistryGuideFile opts ∧
  CheckOptions.LegacyIndexFile opts = CheckOptions.RegistryIndexFile opts ∧
  CheckOptions.LegacyResourceFile opts = CheckOptions.RegistryResourceFile opts ∧
  FileMismatchOptions.ProviderName (CheckOptions.DataSourceFileMismatch opts)
  = CheckOptions.ProviderName opts ∧
  FileMismatchOptions.ProviderName (CheckOptions.ResourceFileMismatch opts)
  = CheckOptions.ProviderName opts ∧
  ResourceFileOptions.ProviderName (CheckOptions.LegacyResourceFile opts)
  = CheckOptions.ProviderName opts ∧
  FrontMatterFileOptions.FileOptions (CheckOptions.LegacyDataSourceFile opts)
  = FileOptions.mk path ∧
  FrontMatterFileOptions.FileOptions (CheckOptions.LegacyGuideFile opts)
  = FileOptions.mk path ∧
  IndexFileOptions.FileOptions (CheckOptions.LegacyIndexFile opts)
  = FileOptions.mk path ∧
  ResourceFileOptions.FileOptions (CheckOptions.LegacyResourceFile opts)
  = FileOptions.mk path.
Proof.
  intros Hparse Hin path.
  destruct (NewCheck_inv _ _ Hin) as (fv & r & Hparse' & _ & ->).
  rewrite Hparse in Hparse'. injection Hparse' as <- <-.
  unfold runOptions, checkOptions. simpl. rewrite runConfig_path. done.
Qed.

End MoreRunFacts.

Lemma engine_gets_found_directories_witness :
  let w := sampleWorld CheckCommandConfig.zero ["docs/r"; "docs/d"] None in
  GetDirectories w "" = (["docs/r"; "docs/d"], None).
Proof.
  intros w.
  destruct (engine_gets_found_directories w [] ["docs/r"; "docs/d"])
    as (_ & flagValues & rest & opts & Hparse & Hdirs & _).
  - in_events.
  - injection Hparse as <- <-. exact Hdirs.
Defined.

Lemma directories_error_stops_run_witness :
  let w := sampleWorld (schemaFlags "schema.json") ["docs/r"] None in
  result (Run w ["/missing"]) = 1 ∧
  uiErrors (events (Run w ["/missing"]))
  = ["Error getting Terraform Provider documentation directories: no such directory"].
Proof.
  intros w.
  destruct (directories_error_stops_run w ["/missing"] (schemaFlags "schema.json")
              ["/missing"] "no such directory" eq_refl eq_refl) as (Hres & Hmsg & _).
  split; [exact Hres|exact Hmsg].
Defined.

Lemma subcategories_file_replaces_list_witness :
  let w := sampleWorld bothGuideFlags ["docs/r"] None in
  let opts := runOptions w (runConfig w bothGuideFlags []) in
  FrontMatterOptions.AllowedSubcategories
    (FrontMatterFileOptions.FrontMatter (CheckOptions.LegacyGuideFile opts))
  = ["Compute"; "Storage"].
Proof.
  intros w opts.
  destruct (subcategories_file_replaces_list w [] bothGuideFlags [] opts eq_refl)
    as (Hguide & _).
  - in_events.
  - exact Hguide.
Defined.

Lemma no_schema_file_runs_engine_witness :
  let w := sampleWorld CheckCommandConfig.zero ["/tmp/docs/r"] None in
  CheckCommandConfig.ProviderName (runConfig w CheckCommandConfig.zero ["/tmp/docs"]) = "" ∧
  result (Run w ["/tmp/docs"]) = 0.
Proof.
  intros w. split; [reflexivity|].
  destruct (no_schema_file_runs_engine w ["/tmp/docs"] CheckCommandConfig.zero
              ["/tmp/docs"] eq_refl eq_refl) as (opts & Hcalls & _ & _ & _ & Hzero).
  - split; vm_compute; [reflexivity|discriminate].
  - intros H. by destruct H.
  - intros H. by destruct H.
  - apply Hzero. vm_compute in Hcalls. injection Hcalls as <-. reflexivity.
Defined.

Lemma schema_maps_reach_engine_witness :
  let w := sampleWorld awsFlags ["docs/r"] None in
  let opts := runOptions w (runConfig w awsFlags []) in
  FileMismatchOptions.ResourceType (CheckOptions.ResourceFileMismatch opts)
  = ResourceTypeResource ∧
  FileMismatchOptions.Schemas (CheckOptions.ResourceFileMismatch opts)
  = Some {[ "aws_instance" := {| attributes := ["ami"; "id"] |} ]}.
Proof.
  intros w opts.
  destruct (schema_maps_reach_engine w [] awsFlags [] awsSchemas
              {[ "registry.terraform.io/hashicorp/aws" :=
                   ProviderSchema.mk
                     (Some {[ "aws_instance" := {| attributes := ["ami"; "id"] |} ]})
                     (Some {[ "aws_ami" := {| attributes := ["id"] |} ]}) ]}
              (ProviderSchema.mk
                 (Some {[ "aws_instance" := {| attributes := ["ami"; "id"] |} ]})
                 (Some {[ "aws_ami" := {| attributes := ["id"] |} ]}))
              opts eq_refl) as (_ & _ & Hres & Htype).
  - in_events.
  - discriminate.
  - reflexivity.
  - reflexivity.
  - reflexivity.
  - split; [exact Htype|exact Hres].
Defined.

Lemma engine_options_agree_witness :
  let w := sampleWorld CheckCommandConfig.zero ["docs/r"] None in
  let opts :=
    runOptions w (runConfig w CheckCommandConfig.zero ["/src/terraform-provider-aws"]) in
  IndexFileOptions.FileOptions (CheckOptions.LegacyIndexFile opts)
  = FileOptions.mk "/src/terraform-provider-aws".
Proof.
  intros w opts.
  destruct (engine_options_agree w ["/src/terraform-provider-aws"]
              CheckCommandConfig.zero ["/src/terraform-provider-aws"] opts eq_refl)
    as (_ & _ & _ & _ & _ & _ & _ & _ & _ & Hindex & _).
  - in_events.
  - exact Hindex.
Defined.

Section FileErrors.

Context (w : World).


End FileErrors.

